(** * Activity aggregation of the portfolio page ([src/app.py])

    A shallow embedding of the GitHub-activity helpers of [app.py]
    ([get_github_monthly_commits], [get_repo_count],
    [get_repos_created_this_year], [get_weekly_streak_increase],
    [github_request], [get_daily_commit_dates], [compute_streak]) together
    with the parts of the Python runtime they lean on ([datetime.date],
    [requests.get], [st.cache_data]), and the properties the specification
    states about them. *)

From Stdlib Require Import ZArith String Ascii List Lia DecimalString.
From stdpp Require Import gmap strings list sorting.

Open Scope string_scope.
Open Scope Z_scope.

(** ** Exceptions and results *)

(** The exceptions the modelled code can raise. *)
Inductive exn : Type :=
| HTTPError (status : Z)   (* [Response.raise_for_status] on a 4xx/5xx *)
| ConnectionError          (* [requests.get] failing below HTTP *)
| JSONDecodeError          (* [Response.json] on a body that is not JSON *)
| KeyError                 (* indexing a decoded object that lacks the field *)
| ValueError               (* [pd.to_datetime] on a string it cannot parse *)
| OverflowError.           (* [date - timedelta] leaving [date.min .. date.max] *)

Inductive result (A : Type) : Type :=
| Ok (a : A)
| Raise (e : exn).
Arguments Ok {A} a.
Arguments Raise {A} e.

(** ** [datetime.date]

    A date is held by its proleptic Gregorian ordinal, [1] for 0001-01-01
    up to [MAXORDINAL] for 9999-12-31; the functions below are those of
    CPython's [datetime] module. *)
Module datetime.

Definition DAYS_IN_MONTH : list Z :=
  [-1; 31; 28; 31; 30; 31; 30; 31; 31; 30; 31; 30; 31].

Definition DAYS_BEFORE_MONTH : list Z :=
  [-1; 0; 31; 59; 90; 120; 151; 181; 212; 243; 273; 304; 334].

Definition tbl (t : list Z) (i : Z) : Z := nth (Z.to_nat i) t (-1).

Definition is_leap (year : Z) : bool :=
  (year mod 4 =? 0) && (negb (year mod 100 =? 0) || (year mod 400 =? 0)).

Definition days_before_year (year : Z) : Z :=
  let y := year - 1 in
  y * 365 + y / 4 - y / 100 + y / 400.

Definition days_in_month (year month : Z) : Z :=
  if (month =? 2) && is_leap year then 29 else tbl DAYS_IN_MONTH month.

Definition days_before_month (year month : Z) : Z :=
  tbl DAYS_BEFORE_MONTH month + (if (2 <? month) && is_leap year then 1 else 0).

Definition ymd2ord (year month day : Z) : Z :=
  days_before_year year + days_before_month year month + day.

Definition DI400Y : Z := Eval cbv in days_before_year 401.
Definition DI100Y : Z := Eval cbv in days_before_year 101.
Definition DI4Y : Z := Eval cbv in days_before_year 5.

Definition MINORDINAL : Z := 1.
Definition MAXORDINAL : Z := 3652059.

(** [_ord2ymd]: ordinal to (year, month, day). *)
Definition ord2ymd (n0 : Z) : Z * Z * Z :=
  let n := n0 - 1 in
  let n400 := n / DI400Y in
  let n := n mod DI400Y in
  let year := n400 * 400 + 1 in
  let n100 := n / DI100Y in
  let n := n mod DI100Y in
  let n4 := n / DI4Y in
  let n := n mod DI4Y in
  let n1 := n / 365 in
  let n := n mod 365 in
  let year := year + (n100 * 100 + n4 * 4 + n1) in
  if (n1 =? 4) || (n100 =? 4) then (year - 1, 12, 31)
  else
    let leapyear := (n1 =? 3) && (negb (n4 =? 24) || (n100 =? 3)) in
    let month := Z.shiftr (n + 50) 5 in
    let preceding :=
      tbl DAYS_BEFORE_MONTH month
      + (if (2 <? month) && leapyear then 1 else 0) in
    if n <? preceding then
      let month := month - 1 in
      let preceding :=
        preceding
        - (tbl DAYS_IN_MONTH month
           + (if (month =? 2) && leapyear then 1 else 0)) in
      (year, month, n - preceding + 1)
    else (year, month, n - preceding + 1).

(** A [date] object exists only for ordinals in range. *)
Definition valid (d : Z) : Prop := MINORDINAL <= d <= MAXORDINAL.

Definition year (d : Z) : Z := fst (fst (ord2ymd d)).

Definition digit (k : Z) : ascii := ascii_of_nat (48 + Z.to_nat k).

(** ["%02d"] and ["%04d"] on the ranges that occur. *)
Definition fmt02 (k : Z) (rest : string) : string :=
  String (digit (k / 10)) (String (digit (k mod 10)) rest).

Definition fmt04 (k : Z) (rest : string) : string :=
  String (digit (k / 1000))
    (String (digit (k / 100 mod 10))
       (String (digit (k / 10 mod 10)) (String (digit (k mod 10)) rest))).

(** [str(d)], i.e. [d.isoformat()]: ["%04d-%02d-%02d"]. *)
Definition isoformat (d : Z) : string :=
  let '(y, m, dd) := ord2ymd d in
  fmt04 y (String "-" (fmt02 m (String "-" (fmt02 dd "")))).

(** [d - timedelta(days=k)]. *)
Definition sub_days (d k : Z) : result Z :=
  let o := d - k in
  if (0 <? o) && (o <=? MAXORDINAL) then Ok o else Raise OverflowError.

(** The last lines of [ord2ymd] on their own: month and day from the day of
    the year (0-based) and the leap flag. *)
Definition month_day (n : Z) (leapyear : bool) : Z * Z :=
  let month := Z.shiftr (n + 50) 5 in
  let preceding :=
    tbl DAYS_BEFORE_MONTH month + (if (2 <? month) && leapyear then 1 else 0) in
  if n <? preceding then
    let month := month - 1 in
    let preceding :=
      preceding
      - (tbl DAYS_IN_MONTH month + (if (month =? 2) && leapyear then 1 else 0)) in
    (month, n - preceding + 1)
  else (month, n - preceding + 1).

(** What [month_day] has to satisfy, as a test. *)
Definition month_day_ok (leap : bool) (n : Z) : bool :=
  let '(m, d) := month_day n leap in
  (1 <=? m) && (m <=? 12) && (1 <=? d)
  && (d <=? tbl DAYS_IN_MONTH m + (if (m =? 2) && leap then 1 else 0))
  && (tbl DAYS_BEFORE_MONTH m + (if (2 <? m) && leap then 1 else 0) + d =? n + 1).

Definition days_in_year (y : Z) : Z := if is_leap y then 366 else 365.

End datetime.

(** An aware [datetime]: its date and the already formatted time of day
    (["HH:MM:SS.ffffff"]), which [timedelta(days=...)] leaves alone. *)
Record datetime_t : Type := mk_datetime { dt_date : Z; dt_clock : string }.

Definition dt_sub_days (dt : datetime_t) (k : Z) : result datetime_t :=
  match datetime.sub_days (dt_date dt) k with
  | Ok d => Ok (mk_datetime d (dt_clock dt))
  | Raise e => Raise e
  end.

(** [dt.isoformat()] of a UTC-aware datetime. *)
Definition dt_isoformat (dt : datetime_t) : string :=
  datetime.isoformat (dt_date dt) ++ "T" ++ dt_clock dt ++ "+00:00".

(** [str(n)] for a Python int. *)
Definition str_int (n : Z) : string := NilZero.string_of_int (Z.to_int n).

(** Python's [a >= b] on strings: lexicographic on code points. *)
Definition str_ge (a b : string) : bool :=
  match String.compare a b with Lt => false | _ => true end.

(** [s[:k]]. *)
Definition slice_to (k : nat) (s : string) : string := String.substring 0 k s.

(** ** The hosting API as seen through [requests.get] *)

(** A repository object and a commit object, with the fields the code reads
    ([repo["name"]], [r["created_at"]], [r.get("fork")],
    [c["commit"]["author"]["date"]]). *)
Record repo : Type := mk_repo { name : string; created_at : string; fork : bool }.
Record commit : Type := mk_commit { author_date : string }.

(** A response body: an array of repository objects, an array of commit
    objects, or bytes that are not JSON. *)
Inductive json : Type :=
| JRepos (l : list repo)
| JCommits (l : list commit)
| JInvalid.

Record request : Type := mk_request {
  url : string;
  headers : list (string * string);
  params : list (string * string)
}.

Inductive reply : Type :=
| Unreachable                              (* no HTTP response at all *)
| Response (status_code : Z) (body : json).

(** The upstream service: what the [t]-th outbound call answers to a request. *)
Definition world : Type := nat -> request -> reply.

(** Computations that call the network and may raise: the state is the number
    of calls made so far. *)
Definition M (A : Type) : Type := world -> nat -> result A * nat.

Definition ret {A} (a : A) : M A := fun _ t => (Ok a, t).

Definition raise {A} (e : exn) : M A := fun _ t => (Raise e, t).

Definition bind {A B} (m : M A) (k : A -> M B) : M B :=
  fun w t =>
    match m w t with
    | (Ok a, t') => k a w t'
    | (Raise e, t') => (Raise e, t')
    end.

(** [try: m  except Exception as e: h e]. *)
Definition try_except {A} (m : M A) (h : exn -> M A) : M A :=
  fun w t =>
    match m w t with
    | (Ok a, t') => (Ok a, t')
    | (Raise e, t') => h e w t'
    end.

Definition lift {A} (r : result A) : M A := fun _ t => (r, t).

Notation "x <- m ;; k" := (bind m (fun x => k))
  (at level 100, m at next level, right associativity).
Notation "m ;;; k" := (bind m (fun _ => k))
  (at level 100, right associativity).

Definition requests_get (rq : request) : M (Z * json) :=
  fun w t =>
    match w t rq with
    | Unreachable => (Raise ConnectionError, S t)
    | Response s b => (Ok (s, b), S t)
    end.

(** [Response.raise_for_status]. *)
Definition raise_for_status (resp : Z * json) : M unit :=
  if (400 <=? fst resp) && (fst resp <? 600) then raise (HTTPError (fst resp))
  else ret tt.

(** [Response.json]. *)
Definition resp_json (resp : Z * json) : M json :=
  match snd resp with
  | JInvalid => raise JSONDecodeError
  | j => ret j
  end.

(** Reading the decoded value as the array the caller expects; an empty
    array is an empty array of anything. *)
Definition as_repos (j : json) : M (list repo) :=
  match j with
  | JRepos l => ret l
  | JCommits [] => ret []
  | _ => raise KeyError
  end.

Definition as_commits (j : json) : M (list commit) :=
  match j with
  | JCommits l => ret l
  | JRepos [] => ret []
  | _ => raise KeyError
  end.

(** An element of a decoded array, for code that does not look inside. *)
Inductive item : Type :=
  | IRepo (r : repo)
  | ICommit (c : commit).

Definition items (j : json) : list item :=
  match j with
  | JRepos l => IRepo <$> l
  | JCommits l => ICommit <$> l
  | JInvalid => []
  end.

(** [r.get("fork")]: the field where the object has one, [None] (falsy)
    where it has not. *)
Definition get_fork (r : item) : bool :=
  match r with
  | IRepo r => fork r
  | ICommit _ => false
  end.

(** ** [pandas] *)

(** A month-start [Timestamp], as (year, month). *)
Definition month_key : Type := Z * Z.

Definition digit_val (c : ascii) : option Z :=
  let k := Z.of_nat (nat_of_ascii c) in
  if (48 <=? k) && (k <=? 57) then Some (k - 48) else None.

(** [pd.to_datetime] on a month key.  A key cut from an ISO-8601 date is
    ["YYYY-MM"] and parses to the first instant of that month, in every year
    0001 .. 9999 (the column is not held in nanoseconds, whose span
    1677 .. 2262 would exclude most of them).  What the parser makes of a
    key of another shape is not modelled: there the parse is taken to
    raise. *)
Definition to_datetime (s : string) : option month_key :=
  match s with
  | String a (String b (String c (String d (String sep (String e (String f "")))))) =>
      match digit_val a, digit_val b, digit_val c, digit_val d,
            digit_val e, digit_val f with
      | Some a, Some b, Some c, Some d, Some e, Some f =>
          let y := 1000 * a + 100 * b + 10 * c + d in
          let m := 10 * e + f in
          if Ascii.eqb sep "-" && (1 <=? m) && (m <=? 12) && (1 <=? y)
          then Some (y, m) else None
      | _, _, _, _, _, _ => None
      end
  | _ => None
  end.

(** Rows of the two-column frame ([Month], [Commits]). *)
Definition DataFrame : Type := list (month_key * Z).

Definition month_le (a b : month_key * Z) : Prop :=
  fst (fst a) * 12 + snd (fst a) <= fst (fst b) * 12 + snd (fst b).

#[global] Instance month_le_dec : RelDecision month_le.
Proof. intros a b. unfold month_le. apply _. Defined.

(** [df["Month"] = pd.to_datetime(df["Month"])]. *)
Fixpoint parse_months (items : list (string * Z)) : option DataFrame :=
  match items with
  | [] => Some []
  | (m, n) :: rest =>
      match to_datetime m, parse_months rest with
      | Some k, Some rows => Some ((k, n) :: rows)
      | _, _ => None
      end
  end.

Definition sort_values (df : DataFrame) : DataFrame := merge_sort month_le df.

Definition str_le (a b : string) : Prop := String.leb a b = true.

#[global] Instance str_le_dec : RelDecision str_le.
Proof. intros a b. unfold str_le. apply _. Defined.

(** [sorted(dates)]. *)
Definition sorted (dates : gset string) : list string :=
  merge_sort str_le (elements dates).

(** ** [st.cache_data]

    Streamlit's memoising decorator: one store per decorated function, keyed
    by the call's arguments; an entry written at time [stored] answers calls
    made before [stored + ttl]; a call that raises stores nothing.  [clock]
    is the time of the call, in seconds. *)
Definition cache_data {K V : Type} `{Countable K} (ttl : Z) (f : K -> M V)
    (key : K) (clock : Z) (store : gmap K (Z * V)) (w : world) (t : nat)
  : result V * nat * gmap K (Z * V) :=
  let miss :=
    match f key w t with
    | (Ok v, t') => (Ok v, t', <[key := (clock, v)]> store)
    | (Raise e, t') => (Raise e, t', store)
    end in
  match store !! key with
  | Some (stored, v) => if clock <? stored + ttl then (Ok v, t, store) else miss
  | None => miss
  end.

(** ** [app.py]: GitHub data fetch and streak logic *)

Section app.

(** [st.secrets]. *)
Variable secrets : gmap string string.

Definition truthy (s : string) : bool := negb (String.eqb s "").

(** Module level: [GITHUB_TOKEN = st.secrets.get("GITHUB_TOKEN", None)]. *)
Definition GITHUB_TOKEN : option string := secrets !! "GITHUB_TOKEN".

Definition api : string := "https://api.github.com".

(** The counting loop of [get_github_monthly_commits]:
    [monthly_counts[month_str] = monthly_counts.get(month_str, 0) + 1]. *)
Fixpoint count_months (commits : list commit) (monthly_counts : gmap string Z)
  : gmap string Z :=
  match commits with
  | [] => monthly_counts
  | c :: rest =>
      let commit_date := author_date c in
      let month_str := slice_to 7 commit_date in
      count_months rest
        (<[month_str := default 0 (monthly_counts !! month_str) + 1]> monthly_counts)
  end.

(** [for repo in repos: ...] of [get_github_monthly_commits]. *)
Fixpoint monthly_repos (username : string) (hdrs prms : list (string * string))
    (repos : list repo) (monthly_counts : gmap string Z) : M (gmap string Z) :=
  match repos with
  | [] => ret monthly_counts
  | r :: rest =>
      let repo_name := name r in
      let commits_url := api ++ "/repos/" ++ username ++ "/" ++ repo_name ++ "/commits" in
      commits_response <- requests_get (mk_request commits_url hdrs prms) ;;
      if fst commits_response =? 200 then
        j <- resp_json commits_response ;;
        commits <- as_commits j ;;
        monthly_repos username hdrs prms rest (count_months commits monthly_counts)
      else monthly_repos username hdrs prms rest monthly_counts
  end.

(** [get_github_monthly_commits(username, months)], with [now] the value of
    [datetime.now(timezone.utc)]; [None] is Python's [None]. *)
Definition get_github_monthly_commits (username : string) (months : Z)
    (now : datetime_t) : M (option DataFrame) :=
  let hdrs :=
    match secrets !! "GITHUB_TOKEN" with
    | Some tok => if truthy tok then [("Authorization", "token " ++ tok)] else []
    | None => []
    end in
  try_except
    (let repos_url := api ++ "/users/" ++ username ++ "/repos" in
     repos_response <- requests_get (mk_request repos_url hdrs []) ;;
     raise_for_status repos_response ;;;
     j <- resp_json repos_response ;;
     let end_date := now in
     start_date <- lift (dt_sub_days end_date (months * 30)) ;;
     repos <- as_repos j ;;
     let prms := [("since", dt_isoformat start_date);
                  ("until", dt_isoformat end_date)] in
     monthly_counts <- monthly_repos username hdrs prms repos ∅ ;;
     if decide (monthly_counts = ∅) then ret None
     else
       match parse_months (map_to_list monthly_counts) with
       | Some df => ret (Some (sort_values df))
       | None => raise ValueError
       end)
    (fun _ => ret None).

(** The [while True] loop of [get_repo_count]; [fuel] bounds the number of
    iterations, [None] is "still looping".  The [params] dictionary
    ([type], [per_page], [page]) is built on every iteration but is not
    handed to [requests.get].  The loop takes the decoded array as it
    comes, whatever objects it holds. *)
Fixpoint repo_pages (fuel : nat) (user : string) (hdrs : list (string * string))
    (repos : list item) (page : Z) : M (option (list item)) :=
  match fuel with
  | O => ret None
  | S fuel' =>
      let url := api ++ "/users/" ++ user ++ "/repos" in
      resp <- requests_get (mk_request url hdrs []) ;;
      if negb (fst resp =? 200) then ret (Some repos)
      else
        j <- resp_json resp ;;
        let data := items j in
        match data with
        | [] => ret (Some repos)
        | _ =>
            let repos := (repos ++ data)%list in
            if Z.of_nat (length data) <? 100 then ret (Some repos)
            else repo_pages fuel' user hdrs repos (page + 1)
        end
  end.

(** [get_repo_count(user, use_token)]. *)
Definition get_repo_count (fuel : nat) (user : string) (use_token : bool)
  : M (option Z) :=
  let hdrs :=
    ("Accept", "application/vnd.github+json")
    :: match secrets !! "GITHUB_TOKEN" with
       | Some tok => if use_token then [("Authorization", "token " ++ tok)] else []
       | None => []
       end in
  repos <- repo_pages fuel user hdrs [] 1 ;;
  ret (option_map
         (fun repos => Z.of_nat (length (filter (fun r => get_fork r = false) repos)))
         repos).

(** [get_repos_created_this_year(user)], with [today] the value of
    [datetime.now()]'s date. *)
Definition get_repos_created_this_year (user : string) (today : Z) : M Z :=
  let year := datetime.year today in
  let hdrs :=
    match secrets !! "GITHUB_TOKEN" with
    | Some tok => [("Authorization", "token " ++ tok)]
    | None => []
    end in
  let url := api ++ "/users/" ++ user ++ "/repos?type=owner&per_page=100" in
  resp <- requests_get (mk_request url hdrs []) ;;
  if negb (fst resp =? 200) then ret 0
  else
    j <- resp_json resp ;;
    repos <- as_repos j ;;
    ret (Z.of_nat
           (length (filter (fun r => String.prefix (str_int year) (created_at r) = true)
                      repos))).

(** [get_weekly_streak_increase(dates)], with [today] the value of
    [datetime.now().date()]. *)
Definition get_weekly_streak_increase (dates : list string) (today : Z) : result Z :=
  match datetime.sub_days today 7 with
  | Raise e => Raise e
  | Ok one_week_ago =>
      let recent_days :=
        filter (fun d => str_ge d (datetime.isoformat one_week_ago) = true) dates in
      Ok (Z.of_nat (length recent_days))
  end.

(** [github_request(url, params)]. *)
Definition github_request (url : string) (prms : list (string * string)) : M json :=
  let hdrs :=
    ("Accept", "application/vnd.github+json")
    :: match GITHUB_TOKEN with
       | Some tok => if truthy tok then [("Authorization", "token " ++ tok)] else []
       | None => []
       end in
  response <- requests_get (mk_request url hdrs prms) ;;
  raise_for_status response ;;;
  resp_json response.

(** [for c in commits: dates.add(date_str[:10])]. *)
Fixpoint add_dates (commits : list commit) (dates : gset string) : gset string :=
  match commits with
  | [] => dates
  | c :: rest =>
      let date_str := author_date c in
      add_dates rest ({[ slice_to 10 date_str ]} ∪ dates)
  end.

(** [for repo in repos: ...] of [get_daily_commit_dates]. *)
Fixpoint daily_repos (user : string) (prms : list (string * string))
    (repos : list repo) (dates : gset string) : M (gset string) :=
  match repos with
  | [] => ret dates
  | r :: rest =>
      let commits_url := api ++ "/repos/" ++ user ++ "/" ++ name r ++ "/commits" in
      fetched <- try_except
                   (j <- github_request commits_url prms ;; ret (Some j))
                   (fun _ => ret None) ;;
      match fetched with
      | None => daily_repos user prms rest dates              (* continue *)
      | Some j =>
          commits <- as_commits j ;;
          daily_repos user prms rest (add_dates commits dates)
      end
  end.

(** [get_daily_commit_dates(user, months)], with [now] the value of
    [datetime.now(timezone.utc)]. *)
Definition get_daily_commit_dates (user : string) (months : Z) (now : datetime_t)
  : M (list string) :=
  let repos_url := api ++ "/users/" ++ user ++ "/repos" in
  j <- github_request repos_url [("type", "owner")] ;;
  since <- lift (dt_sub_days now (months * 30)) ;;
  repos <- as_repos j ;;
  dates <- daily_repos user [("since", dt_isoformat since)] repos ∅ ;;
  ret (sorted dates).

(** The [while str(day) in dates] loop of [compute_streak]; [fuel] bounds the
    number of evaluations of the loop condition, [None] is "still looping". *)
Fixpoint streak_loop (fuel : nat) (dates : list string) (streak day : Z)
  : option (result Z) :=
  match fuel with
  | O => None
  | S fuel' =>
      if decide (datetime.isoformat day ∈ dates) then
        match datetime.sub_days day 1 with
        | Ok day' => streak_loop fuel' dates (streak + 1) day'
        | Raise e => Some (Raise e)
        end
      else Some (Ok streak)
  end.

(** [compute_streak(dates)], with [today] the value of
    [datetime.now().date()]. *)
Definition compute_streak (fuel : nat) (dates : list string) (today : Z)
  : option (result Z) :=
  streak_loop fuel dates 0 today.

(** The two decorated functions as their callers see them:
    [@st.cache_data(ttl=3600)]. *)
Definition get_github_monthly_commits_cached (username : string) (months : Z)
    (now : datetime_t) (clock : Z) (store : gmap (string * Z) (Z * option DataFrame))
  : world -> nat -> result (option DataFrame) * nat * gmap (string * Z) (Z * option DataFrame) :=
  cache_data 3600 (fun k => get_github_monthly_commits (fst k) (snd k) now)
    (username, months) clock store.

Definition get_daily_commit_dates_cached (user : string) (months : Z)
    (now : datetime_t) (clock : Z) (store : gmap (string * Z) (Z * list string))
  : world -> nat -> result (list string) * nat * gmap (string * Z) (Z * list string) :=
  cache_data 3600 (fun k => get_daily_commit_dates (fst k) (snd k) now)
    (user, months) clock store.

End app.

(** ** Notions the statements use *)

(** The month of a commit: its authored date truncated to ["YYYY-MM"]. *)
Definition month_of (c : commit) : string := slice_to 7 (author_date c).

(** A commit dated as the API dates it (ISO-8601): a calendar date
    ["YYYY-MM-DD"], then whatever follows it (the time of day, the zone). *)
Definition iso_dated (c : commit) : Prop :=
  exists (d : Z) (rest : string),
    datetime.valid d /\ author_date c = datetime.isoformat d ++ rest.

(** The number of commits of a list authored in month [m]. *)
Definition commits_in_month (m : string) (cs : list commit) : Z :=
  Z.of_nat (length (filter (fun c => month_of c = m) cs)).

(** What a pass over per-repository answers (status, commits) gets to count:
    the commits of the answers with status 200, in order. *)
Definition counted_commits (answers : list (Z * list commit)) : list commit :=
  concat ((fun a => if fst a =? 200 then snd a else []) <$> answers).

(** What a pass of [get_daily_commit_dates] gets to keep: the commits of the
    fetches that did not fail ([None] is a failed fetch). *)
Definition kept_commits (answers : list (option (list commit))) : list commit :=
  concat (default [] <$> answers).

(** The answer of the upstream to a fetch that succeeds with [l], or fails. *)
Definition reply_of (a : option (list commit)) : reply :=
  match a with
  | Some l => Response 200 (JCommits l)
  | None => Unreachable
  end.

(** No answer of the upstream carries a commit. *)
Definition no_commits (w : world) : Prop :=
  forall t rq c l, w t rq <> Response 200 (JCommits (c :: l)).

(** Every stored count is at least one. *)
Definition counts_positive (mc : gmap string Z) : Prop :=
  forall m n, mc !! m = Some n -> 1 <= n.

(** ** Scenarios *)

Definition noon (y m d : Z) : datetime_t :=
  mk_datetime (datetime.ymd2ord y m d) "12:00:00.000000".

(** 2025-11-04 and the five days up to it. *)
Definition nov_4 : Z := Eval cbv in datetime.ymd2ord 2025 11 4.

Definition five_days : list string :=
  ["2025-10-31"; "2025-11-01"; "2025-11-02"; "2025-11-03"; "2025-11-04"].

Definition numbered_repos (n : nat) (created : string) : list repo :=
  (fun i : nat => mk_repo ("repo" ++ str_int (Z.of_nat i)) created false) <$> seq 0 n.

(** Every call is answered 403 (rate limited). *)
Definition world_forbidden : world := fun _ _ => Response 403 JInvalid.

(** A full first page, then a server error. *)
Definition world_second_page_fails : world := fun t _ =>
  match t with
  | O => Response 200 (JRepos (numbered_repos 100 "2024-05-01T00:00:00Z"))
  | _ => Response 500 JInvalid
  end.

(** An account without repositories. *)
Definition world_no_repos : world := fun _ _ => Response 200 (JRepos []).

Definition three_repos : list repo :=
  [mk_repo "alpha" "2024-05-01T00:00:00Z" false;
   mk_repo "beta" "2024-06-01T00:00:00Z" false;
   mk_repo "gamma" "2024-07-01T00:00:00Z" false].

(** Three repositories without a commit in the window. *)
Definition world_quiet : world := fun t _ =>
  match t with
  | O => Response 200 (JRepos three_repos)
  | _ => Response 200 (JCommits [])
  end.

(** Three repositories; the commits of the second cannot be fetched. *)
Definition world_middle_unreachable : world := fun t _ =>
  match t with
  | 0%nat => Response 200 (JRepos three_repos)
  | 1%nat => Response 200 (JCommits [mk_commit "2025-01-05T10:00:00Z"])
  | 2%nat => Unreachable
  | _ => Response 200 (JCommits [mk_commit "2025-02-01T08:00:00Z"])
  end.

(** An account with 101 repositories, served 100 to a page. *)
Definition many_repos : list repo := numbered_repos 101 "2025-06-01T00:00:00Z".

Definition world_many_repos : world := fun _ rq =>
  if String.eqb (url rq) "https://api.github.com/users/duckola/repos?type=owner&per_page=100"
  then Response 200 (JRepos (take 100 many_repos))
  else if String.eqb (url rq)
            "https://api.github.com/users/duckola/repos?type=owner&per_page=100&page=2"
  then Response 200 (JRepos (drop 100 many_repos))
  else Response 404 JInvalid.

(** The same account behind an upstream that pages as the API does: thirty
    entries to a page where the request names no [per_page], the first page
    where it names no [page]. *)
Definition world_paged_api : world := fun _ rq =>
  if negb (String.eqb (url rq) "https://api.github.com/users/duckola/repos")
  then Response 404 JInvalid
  else if bool_decide (params rq = [])
  then Response 200 (JRepos (take 30 many_repos))
  else if bool_decide
            (params rq = [("type", "owner"); ("per_page", "100"); ("page", "1")])
  then Response 200 (JRepos (take 100 many_repos))
  else if bool_decide
            (params rq = [("type", "owner"); ("per_page", "100"); ("page", "2")])
  then Response 200 (JRepos (drop 100 many_repos))
  else Response 404 JInvalid.

Definition three_commits : list commit :=
  [mk_commit "2025-01-05T10:00:00Z"; mk_commit "2025-01-20T09:30:00Z";
   mk_commit "2025-02-01T23:59:59Z"].

(** One repository with the three commits of the specification's example. *)
Definition one_repo : list repo := [mk_repo "site" "2024-05-01T00:00:00Z" false].

Definition world_one_repo : world := fun t _ =>
  match t with
  | O => Response 200 (JRepos one_repo)
  | _ => Response 200 (JCommits three_commits)
  end.

Definition three_dates : list string := ["2025-01-05"; "2025-01-20"; "2025-02-01"].

(** * The rest of the module: further notions and the page code *)

(** What one fetch of commits through [github_request] contributes: the
    commits of an answer that is neither a 4xx/5xx nor undecodable, and
    nothing when the fetch fails. *)
Inductive fetch_outcome : reply -> list commit -> Prop :=
| fetch_ok (s : Z) (l : list commit) :
    ~ 400 <= s < 600 -> fetch_outcome (Response s (JCommits l)) l
| fetch_unreachable : fetch_outcome Unreachable []
| fetch_http_error (s : Z) (b : json) :
    400 <= s < 600 -> fetch_outcome (Response s b) []
| fetch_invalid (s : Z) : fetch_outcome (Response s JInvalid) [].

(** The day of a commit: its authored date truncated to ["YYYY-MM-DD"]. *)
Definition day_of (c : commit) : string := slice_to 10 (author_date c).

(** [df["Commits"].sum()]. *)
Definition total_commits (df : DataFrame) : Z := foldr Z.add 0 (snd <$> df).

(** What the "Recent Activity" block of the home page shows. *)
Inductive recent_activity : Type :=
| ShowChart (df : DataFrame)     (* the bar chart and the table *)
| ShowInfo.                      (* "No recent PushEvent commits found ..." *)

(** [df.empty]. *)
Definition df_empty (df : DataFrame) : bool :=
  match df with [] => true | _ => false end.

(** The "Recent Activity" block of the home page:
    [df = get_github_monthly_commits("duckola", months=5)] and the test
    [df is not None and not df.empty]. *)
Definition home_recent_activity (secrets : gmap string string) (now : datetime_t)
    (clock : Z) (store : gmap (string * Z) (Z * option DataFrame)) (w : world) (t : nat)
  : result recent_activity * nat * gmap (string * Z) (Z * option DataFrame) :=
  match get_github_monthly_commits_cached secrets "duckola" 5 now clock store w t with
  | (Ok df, t', store') =>
      (Ok match df with
          | Some d => if negb (df_empty d) then ShowChart d else ShowInfo
          | None => ShowInfo
          end, t', store')
  | (Raise e, t', store') => (Raise e, t', store')
  end.

(** Every frame held by a store has at least one row. *)
Definition frames_nonempty (store : gmap (string * Z) (Z * option DataFrame)) : Prop :=
  forall k stored df, store !! k = Some (stored, Some df) -> df <> [].

(** An upstream whose answer to a request does not change over time. *)
Definition time_independent (w : world) : Prop :=
  forall t t' rq, w t rq = w t' rq.

(** [str(year)] against ["%04d"], as a test. *)
Definition four_digit_year_ok (y : Z) : bool :=
  String.eqb (str_int y) (datetime.fmt04 y "").

(** A repository whose [created_at] is an ISO timestamp of day [d]. *)
Definition created_on (r : repo) (d : Z) : Prop :=
  datetime.valid d /\ exists rest, created_at r = datetime.isoformat d ++ rest.

(** [m] asks the upstream only for requests satisfying [P]: its outcome is
    the same under any two upstreams that answer those requests alike. *)
Definition only_asks {A : Type} (P : request -> Prop) (m : M A) : Prop :=
  forall w w' : world,
    (forall t rq, P rq -> w t rq = w' t rq) -> forall t, m w t = m w' t.

(** A request that goes to the hosting API. *)
Definition to_api (rq : request) : Prop :=
  String.prefix "https://api.github.com/" (url rq) = true.

(** A request without an [Authorization] header. *)
Definition anonymous (rq : request) : Prop :=
  forall v, ("Authorization", v) ∉ headers rq.

(** A request that presents the token [tok]. *)
Definition presents (tok : string) (rq : request) : Prop :=
  ("Authorization", "token " ++ tok) ∈ headers rq.

(** A request without query parameters beside its URL. *)
Definition bare (rq : request) : Prop := params rq = [].

(** ** [app.py]: the page around the widget *)

(** "Session state: visit count": one run of the script on a session,
    [if "visits" not in st.session_state: st.session_state["visits"] = 0]
    followed by [st.session_state["visits"] += 1]. *)
Definition count_visit (session_state : gmap string Z) : result (gmap string Z) :=
  let session_state :=
    if decide (session_state !! "visits" = None)
    then <["visits" := 0]> session_state
    else session_state in
  match session_state !! "visits" with
  | Some visits => Ok (<["visits" := visits + 1]> session_state)
  | None => Raise KeyError
  end.

(** The script run [n] times on the same session. *)
Fixpoint reruns (n : nat) (session_state : gmap string Z) : result (gmap string Z) :=
  match n with
  | O => Ok session_state
  | S n' =>
      match reruns n' session_state with
      | Ok s => count_visit s
      | Raise e => Raise e
      end
  end.

(** The files the script can read: [open(path, "rb").read()], [None] when
    opening or reading raises. *)
Definition filesystem : Type := string -> option string.

(** [load_file_bytes(path)]. *)
Definition load_file_bytes (fs : filesystem) (path : string) : option string :=
  match fs path with
  | Some bytes => Some bytes
  | None => None
  end.

Definition nl : string := String (ascii_of_nat 10) "".

(** [make_resume_bytes(name)]. *)
Definition make_resume_bytes (name : string) : string :=
  name ++ " — Resume" ++ nl ++ nl
  ++ "Summary" ++ nl
  ++ "- Passionate about software, data and delightful user experiences." ++ nl ++ nl
  ++ "Experience" ++ nl
  ++ "- Student Developer — Projects in Streamlit, Python, and Web." ++ nl ++ nl
  ++ "Skills" ++ nl
  ++ "- Python, Streamlit, Plotly, Pandas, SQL, HTML/CSS/JS" ++ nl ++ nl
  ++ "Links" ++ nl
  ++ "- GitHub: https://github.com/" ++ nl
  ++ "- LinkedIn: https://www.linkedin.com/" ++ nl.

(** The arguments of [st.sidebar.download_button]. *)
Record download_button : Type := mk_download {
  label : string; data : string; file_name : string; mime : string
}.

(** The résumé button of the sidebar:
    [resume_pdf = load_file_bytes("resume_adolfo.pdf")], then
    [if resume_pdf: ... else: ...]. *)
Definition sidebar_resume (fs : filesystem) : download_button :=
  let resume_pdf := load_file_bytes fs "resume_adolfo.pdf" in
  match resume_pdf with
  | Some bytes =>
      if truthy bytes then
        mk_download "Download Resume (PDF)" bytes
          "Lee_Jasmin_Adolfo_Resume.pdf" "application/pdf"
      else
        mk_download "Download Resume (TXT)" (make_resume_bytes "Lee Jasmin R. Adolfo")
          "Lee_Jasmin_Adolfo_Resume.txt" "text/plain"
  | None =>
      mk_download "Download Resume (TXT)" (make_resume_bytes "Lee Jasmin R. Adolfo")
        "Lee_Jasmin_Adolfo_Resume.txt" "text/plain"
  end.

(** * Properties *)

(** ** The calendar *)

Example isoformat_examples :
  datetime.isoformat nov_4 = "2025-11-04"
  /\ datetime.isoformat 1 = "0001-01-01"
  /\ datetime.isoformat datetime.MAXORDINAL = "9999-12-31"
  /\ datetime.isoformat (datetime.ymd2ord 2024 2 29) = "2024-02-29"
  /\ datetime.isoformat (datetime.ymd2ord 2024 12 31) = "2024-12-31"
  /\ datetime.isoformat (datetime.ymd2ord 2000 12 31) = "2000-12-31"
  /\ datetime.isoformat (datetime.ymd2ord 1900 3 1) = "1900-03-01".
Proof. repeat split. Qed.

Module DatetimeFacts.
Import datetime.


Lemma shiftr5 n : Z.shiftr n 5 = n / 32.
Proof. rewrite Z.shiftr_div_pow2 by lia. reflexivity. Qed.

Lemma is_leap_spec y :
  is_leap y = true <-> (y mod 4 = 0 /\ (y mod 100 <> 0 \/ y mod 400 = 0)).
Proof.
  unfold is_leap.
  rewrite andb_true_iff, orb_true_iff, negb_true_iff, !Z.eqb_eq, Z.eqb_neq.
  tauto.
Qed.

Lemma is_leap_false y :
  is_leap y = false <-> (y mod 4 <> 0 \/ (y mod 100 = 0 /\ y mod 400 <> 0)).
Proof.
  pose proof (is_leap_spec y) as H. destruct (is_leap y).
  - split; [discriminate|]. intros Hn. exfalso.
    destruct H as [H _]. specialize (H eq_refl). lia.
  - split; [|reflexivity]. intros _.
    destruct (Z.eq_dec (y mod 4) 0), (Z.eq_dec (y mod 100) 0), (Z.eq_dec (y mod 400) 0);
      try lia; exfalso; assert (false = true) by (apply H; lia); discriminate.
Qed.

Lemma month_day_table (leap : bool) :
  forallb (month_day_ok leap) (map Z.of_nat (seq 0 365)) = true.
Proof. destruct leap; vm_compute; reflexivity. Qed.

Lemma month_day_spec (n : Z) (leap : bool) :
  0 <= n < 365 ->
  let '(m, d) := month_day n leap in
  1 <= m <= 12
  /\ 1 <= d <= tbl DAYS_IN_MONTH m + (if (m =? 2) && leap then 1 else 0)
  /\ tbl DAYS_BEFORE_MONTH m + (if (2 <? m) && leap then 1 else 0) + d = n + 1.
Proof.
  intros Hn.
  pose proof (month_day_table leap) as Ht.
  rewrite forallb_forall in Ht.
  specialize (Ht n). unfold month_day_ok in Ht.
  destruct (month_day n leap) as [m d].
  assert (Hin : In n (map Z.of_nat (seq 0 365))).
  { apply in_map_iff. exists (Z.to_nat n). split; [lia|]. apply in_seq. lia. }
  specialize (Ht Hin).
  rewrite !andb_true_iff, !Z.leb_le, Z.eqb_eq in Ht. lia.
Qed.

Lemma ord2ymd_unfold n0 :
  ord2ymd n0 =
    let n := n0 - 1 in
    let n400 := n / 146097 in
    let n := n mod 146097 in
    let n100 := n / 36524 in
    let n := n mod 36524 in
    let n4 := n / 1461 in
    let n := n mod 1461 in
    let n1 := n / 365 in
    let n := n mod 365 in
    let year := n400 * 400 + 1 + (n100 * 100 + n4 * 4 + n1) in
    if (n1 =? 4) || (n100 =? 4) then (year - 1, 12, 31)
    else
      let '(m, d) := month_day n ((n1 =? 3) && (negb (n4 =? 24) || (n100 =? 3))) in
      (year, m, d).
Proof.
  unfold ord2ymd, month_day. cbv zeta.
  change DI400Y with 146097. change DI100Y with 36524. change DI4Y with 1461.
  repeat match goal with |- context [if ?b then _ else _] => destruct b end; reflexivity.
Qed.

Lemma days_in_month_alt y m :
  days_in_month y m = tbl DAYS_IN_MONTH m + (if (m =? 2) && is_leap y then 1 else 0).
Proof.
  unfold days_in_month.
  destruct (Z.eqb_spec m 2) as [-> | _]; destruct (is_leap y); cbn; try reflexivity; lia.
Qed.

Lemma ord2ymd_spec n0 :
  valid n0 ->
  let '(y, m, d) := ord2ymd n0 in
  1 <= y <= 9999 /\ 1 <= m <= 12 /\ 1 <= d <= days_in_month y m
  /\ ymd2ord y m d = n0.
Proof.
  unfold valid, MINORDINAL, MAXORDINAL. intros Hn.
  rewrite ord2ymd_unfold. cbv zeta.
  set (N := n0 - 1).
  assert (H400 : N = 146097 * (N / 146097) + N mod 146097 /\ 0 <= N mod 146097 < 146097)
    by (split; [apply Z.div_mod | apply Z.mod_pos_bound]; lia).
  set (a := N / 146097) in *. set (r1 := N mod 146097) in *.
  assert (H100 : r1 = 36524 * (r1 / 36524) + r1 mod 36524 /\ 0 <= r1 mod 36524 < 36524)
    by (split; [apply Z.div_mod | apply Z.mod_pos_bound]; lia).
  set (b := r1 / 36524) in *. set (r2 := r1 mod 36524) in *.
  assert (H4 : r2 = 1461 * (r2 / 1461) + r2 mod 1461 /\ 0 <= r2 mod 1461 < 1461)
    by (split; [apply Z.div_mod | apply Z.mod_pos_bound]; lia).
  set (c := r2 / 1461) in *. set (r3 := r2 mod 1461) in *.
  assert (H1 : r3 = 365 * (r3 / 365) + r3 mod 365 /\ 0 <= r3 mod 365 < 365)
    by (split; [apply Z.div_mod | apply Z.mod_pos_bound]; lia).
  set (e := r3 / 365) in *. set (r4 := r3 mod 365) in *.
  clearbody a r1 b r2 c r3 e r4.
  destruct ((e =? 4) || (b =? 4)) eqn:Hsp.
  - (* last day of a 4-, 100- or 400-year cycle *)
    rewrite orb_true_iff, !Z.eqb_eq in Hsp.
    rewrite days_in_month_alt.
    unfold ymd2ord, days_before_month, days_before_year.
    change (tbl DAYS_IN_MONTH 12) with 31. change (tbl DAYS_BEFORE_MONTH 12) with 334.
    change (12 =? 2) with false. change (2 <? 12) with true. cbn [andb].
    set (Y := a * 400 + 1 + (b * 100 + c * 4 + e) - 1).
    assert (HY : Y = a * 400 + 1 + (b * 100 + c * 4 + e) - 1) by reflexivity.
    clearbody Y.
    assert (Hl : is_leap Y = true).
    { apply is_leap_spec. Z.to_euclidean_division_equations. lia. }
    rewrite Hl. Z.to_euclidean_division_equations. lia.
  - rewrite orb_false_iff, !Z.eqb_neq in Hsp.
    set (Y := a * 400 + 1 + (b * 100 + c * 4 + e)).
    assert (HY : Y = a * 400 + 1 + (b * 100 + c * 4 + e)) by reflexivity.
    clearbody Y.
    assert (Hl : (e =? 3) && (negb (c =? 24) || (b =? 3)) = is_leap Y).
    { destruct (is_leap Y) eqn:E.
      - apply is_leap_spec in E.
        rewrite andb_true_iff, orb_true_iff, negb_true_iff, !Z.eqb_eq, Z.eqb_neq.
        Z.to_euclidean_division_equations. lia.
      - apply is_leap_false in E.
        rewrite andb_false_iff, orb_false_iff, negb_false_iff, !Z.eqb_neq, Z.eqb_eq.
        Z.to_euclidean_division_equations. lia. }
    rewrite Hl.
    pose proof (month_day_spec r4 (is_leap Y) ltac:(lia)) as Hmd.
    destruct (month_day r4 (is_leap Y)) as [m d].
    rewrite days_in_month_alt.
    unfold ymd2ord, days_before_month, days_before_year.
    destruct Hmd as (Hm & Hd & Hs).
    repeat split; try lia.
    Z.to_euclidean_division_equations. lia.
Qed.

Ltac tbl_compute :=
  repeat match goal with
    | |- context [tbl ?t ?i] =>
        let v := eval vm_compute in (tbl t i) in change (tbl t i) with v
    | H : context [tbl ?t ?i] |- _ =>
        let v := eval vm_compute in (tbl t i) in change (tbl t i) with v in H
    end.

Ltac month_cases m :=
  let H := fresh in
  assert (H : m = 1 \/ m = 2 \/ m = 3 \/ m = 4 \/ m = 5 \/ m = 6 \/ m = 7
              \/ m = 8 \/ m = 9 \/ m = 10 \/ m = 11 \/ m = 12) by lia;
  repeat (destruct H as [-> | H]); [ .. | subst m].

Lemma days_before_year_succ y :
  days_before_year (y + 1) = days_before_year y + days_in_year y.
Proof.
  unfold days_before_year, days_in_year. cbv zeta.
  destruct (is_leap y) eqn:E.
  - apply is_leap_spec in E. Z.to_euclidean_division_equations. lia.
  - apply is_leap_false in E. Z.to_euclidean_division_equations. lia.
Qed.

Lemma days_before_year_mono y1 y2 :
  y1 <= y2 -> days_before_year y1 <= days_before_year y2.
Proof.
  unfold days_before_year. cbv zeta. intros H.
  Z.to_euclidean_division_equations. lia.
Qed.

Lemma day_of_year_bounds y m d :
  1 <= m <= 12 -> 1 <= d <= days_in_month y m ->
  1 <= days_before_month y m + d <= days_in_year y.
Proof.
  intros Hm Hd. rewrite days_in_month_alt in Hd.
  unfold days_before_month, days_in_year.
  destruct (is_leap y); month_cases m; tbl_compute; cbn in *; lia.
Qed.

Lemma days_before_month_next y m1 m2 d :
  1 <= m1 -> m1 < m2 -> m2 <= 12 -> d <= days_in_month y m1 ->
  days_before_month y m1 + d <= days_before_month y m2.
Proof.
  intros H1 H12 H2 Hd. rewrite days_in_month_alt in Hd.
  unfold days_before_month.
  destruct (is_leap y); month_cases m1; tbl_compute; cbn in Hd;
    month_cases m2; try lia; tbl_compute; cbn; lia.
Qed.

Lemma ymd2ord_lt y1 m1 d1 y2 m2 d2 :
  1 <= m1 <= 12 -> 1 <= d1 <= days_in_month y1 m1 ->
  1 <= m2 <= 12 -> 1 <= d2 <= days_in_month y2 m2 ->
  y1 < y2 \/ (y1 = y2 /\ (m1 < m2 \/ (m1 = m2 /\ d1 < d2))) ->
  ymd2ord y1 m1 d1 < ymd2ord y2 m2 d2.
Proof.
  intros Hm1 Hd1 Hm2 Hd2 Hlt. unfold ymd2ord.
  pose proof (day_of_year_bounds y1 m1 d1 Hm1 Hd1) as B1.
  pose proof (day_of_year_bounds y2 m2 d2 Hm2 Hd2) as B2.
  destruct Hlt as [Hy | [-> [Hm | [-> Hd]]]].
  - pose proof (days_before_year_succ y1) as Hs.
    pose proof (days_before_year_mono (y1 + 1) y2 ltac:(lia)). lia.
  - pose proof (days_before_month_next y2 m1 m2 d1 ltac:(lia) Hm ltac:(lia) ltac:(lia)).
    lia.
  - lia.
Qed.

Lemma digit_compare a b :
  0 <= a <= 9 -> 0 <= b <= 9 -> Ascii.compare (digit a) (digit b) = (a ?= b).
Proof.
  intros Ha Hb.
  assert (Ca : a = 0 \/ a = 1 \/ a = 2 \/ a = 3 \/ a = 4 \/ a = 5 \/ a = 6
               \/ a = 7 \/ a = 8 \/ a = 9) by lia.
  assert (Cb : b = 0 \/ b = 1 \/ b = 2 \/ b = 3 \/ b = 4 \/ b = 5 \/ b = 6
               \/ b = 7 \/ b = 8 \/ b = 9) by lia.
  repeat (destruct Ca as [-> | Ca]); try subst a;
    repeat (destruct Cb as [-> | Cb]); try subst b; reflexivity.
Qed.

Lemma fmt02_compare k1 k2 r1 r2 :
  0 <= k1 < 100 -> 0 <= k2 < 100 ->
  String.compare (fmt02 k1 r1) (fmt02 k2 r2)
  = match k1 ?= k2 with Eq => String.compare r1 r2 | c => c end.
Proof.
  intros H1 H2. unfold fmt02. cbn [String.compare].
  rewrite !digit_compare by (Z.to_euclidean_division_equations; lia).
  destruct (Z.compare_spec (k1 / 10) (k2 / 10)) as [E | E | E];
    destruct (Z.compare_spec (k1 mod 10) (k2 mod 10)) as [E' | E' | E'];
    destruct (Z.compare_spec k1 k2) as [F | F | F];
    try reflexivity; exfalso; Z.to_euclidean_division_equations; lia.
Qed.

Lemma fmt04_compare k1 k2 r1 r2 :
  0 <= k1 < 10000 -> 0 <= k2 < 10000 ->
  String.compare (fmt04 k1 r1) (fmt04 k2 r2)
  = match k1 ?= k2 with Eq => String.compare r1 r2 | c => c end.
Proof.
  intros H1 H2. unfold fmt04. cbn [String.compare].
  rewrite !digit_compare by (Z.to_euclidean_division_equations; lia).
  destruct (Z.compare_spec (k1 / 1000) (k2 / 1000)) as [E | E | E];
    destruct (Z.compare_spec (k1 / 100 mod 10) (k2 / 100 mod 10)) as [E1 | E1 | E1];
    destruct (Z.compare_spec (k1 / 10 mod 10) (k2 / 10 mod 10)) as [E2 | E2 | E2];
    destruct (Z.compare_spec (k1 mod 10) (k2 mod 10)) as [E3 | E3 | E3];
    destruct (Z.compare_spec k1 k2) as [F | F | F];
    try reflexivity; exfalso; Z.to_euclidean_division_equations; lia.
Qed.

Lemma days_in_month_le_31 y m : 1 <= m <= 12 -> days_in_month y m <= 31.
Proof.
  intros Hm. rewrite days_in_month_alt.
  destruct (is_leap y); month_cases m; tbl_compute; cbn; lia.
Qed.

Lemma isoformat_compare n1 n2 :
  valid n1 -> valid n2 ->
  String.compare (isoformat n1) (isoformat n2) = (n1 ?= n2).
Proof.
  intros V1 V2. unfold isoformat.
  pose proof (ord2ymd_spec n1 V1) as S1. pose proof (ord2ymd_spec n2 V2) as S2.
  destruct (ord2ymd n1) as [[y1 m1] d1]. destruct (ord2ymd n2) as [[y2 m2] d2].
  destruct S1 as (Hy1 & Hm1 & Hd1 & E1). destruct S2 as (Hy2 & Hm2 & Hd2 & E2).
  pose proof (days_in_month_le_31 y1 m1 Hm1). pose proof (days_in_month_le_31 y2 m2 Hm2).
  rewrite fmt04_compare by lia. cbn [String.compare].
  change (Ascii.compare "-" "-") with Eq. cbv iota.
  rewrite fmt02_compare by lia. cbn [String.compare].
  change (Ascii.compare "-" "-") with Eq. cbv iota.
  rewrite fmt02_compare by lia. cbn [String.compare].
  subst n1 n2. symmetry.
  destruct (Z.compare_spec y1 y2) as [-> | Hy | Hy].
  - destruct (Z.compare_spec m1 m2) as [-> | Hm | Hm].
    + destruct (Z.compare_spec d1 d2) as [-> | Hd | Hd].
      * apply Z.compare_refl.
      * apply Z.compare_lt_iff. apply ymd2ord_lt; auto; lia.
      * apply Z.compare_gt_iff. apply ymd2ord_lt; auto; lia.
    + apply Z.compare_lt_iff. apply ymd2ord_lt; auto; lia.
    + apply Z.compare_gt_iff. apply ymd2ord_lt; auto; lia.
  - apply Z.compare_lt_iff. apply ymd2ord_lt; auto; lia.
  - apply Z.compare_gt_iff. apply ymd2ord_lt; auto; lia.
Qed.

Lemma isoformat_inj n1 n2 :
  valid n1 -> valid n2 -> isoformat n1 = isoformat n2 -> n1 = n2.
Proof.
  intros V1 V2 E. apply Z.compare_eq. rewrite <- isoformat_compare by assumption.
  rewrite E. clear. induction (isoformat n2) as [|c s IH]; cbn; [reflexivity|].
  unfold Ascii.compare. rewrite N.compare_refl. exact IH.
Qed.

End DatetimeFacts.
Import DatetimeFacts.

(** ** [date - timedelta] *)

Lemma sub_days_ok d k :
  0 < d - k <= datetime.MAXORDINAL -> datetime.sub_days d k = Ok (d - k).
Proof.
  intros H. unfold datetime.sub_days. cbv zeta.
  destruct (Z.ltb_spec 0 (d - k)); destruct (Z.leb_spec (d - k) datetime.MAXORDINAL);
    try lia. reflexivity.
Qed.

Lemma sub_days_overflow d k :
  d - k <= 0 -> datetime.sub_days d k = Raise OverflowError.
Proof.
  intros H. unfold datetime.sub_days. cbv zeta.
  destruct (Z.ltb_spec 0 (d - k)); [lia | reflexivity].
Qed.

Lemma dt_sub_days_ok (dt : datetime_t) (k : Z) :
  0 < dt_date dt - k <= datetime.MAXORDINAL ->
  dt_sub_days dt k = Ok (mk_datetime (dt_date dt - k) (dt_clock dt)).
Proof. intros H. unfold dt_sub_days. rewrite sub_days_ok by assumption. reflexivity. Qed.

(** ** [compute_streak] *)

Lemma streak_loop_run (dates : list string) (j : nat) :
  forall (fuel : nat) (streak day : Z),
    datetime.valid day -> Z.of_nat j < day -> (j < fuel)%nat ->
    (forall i, 0 <= i < Z.of_nat j -> datetime.isoformat (day - i) ∈ dates) ->
    datetime.isoformat (day - Z.of_nat j) ∉ dates ->
    streak_loop fuel dates streak day = Some (Ok (streak + Z.of_nat j)).
Proof.
  induction j as [|j IH]; intros fuel streak day Hv Hj Hf Hin Hout.
  - destruct fuel as [|fuel]; [lia|]. cbn.
    rewrite Z.sub_0_r in Hout. rewrite decide_False by assumption.
    f_equal. f_equal. lia.
  - destruct fuel as [|fuel]; [lia|]. cbn [streak_loop].
    rewrite decide_True by (specialize (Hin 0); rewrite Z.sub_0_r in Hin; apply Hin; lia).
    unfold datetime.valid, datetime.MINORDINAL in Hv.
    rewrite sub_days_ok by lia.
    rewrite IH.
    + f_equal. f_equal. lia.
    + unfold datetime.valid, datetime.MINORDINAL. lia.
    + lia.
    + lia.
    + intros i Hi. replace (day - 1 - i) with (day - (i + 1)) by lia. apply Hin. lia.
    + replace (day - 1 - Z.of_nat j) with (day - Z.of_nat (S j)) by lia. exact Hout.
Qed.

(** C2 (amended).  For every collection of date strings and every date
    [today], when the first day missing from the collection on the walk back
    from [today] is a day [today - k] that [date] can still hold
    ([0 <= k < today], counting days from 0001-01-01 as day 1),
    [compute_streak] returns [k]: the number of consecutive calendar days
    ending at [today], inclusive, whose ISO string is in the collection. *)
Theorem compute_streak_counts (dates : list string) (today k : Z) (fuel : nat) :
  datetime.valid today ->
  0 <= k < today ->
  (Z.to_nat k < fuel)%nat ->
  (forall i, 0 <= i < k -> datetime.isoformat (today - i) ∈ dates) ->
  datetime.isoformat (today - k) ∉ dates ->
  compute_streak fuel dates today = Some (Ok k).
Proof.
  intros Hv Hk Hf Hin Hout. unfold compute_streak.
  rewrite (streak_loop_run dates (Z.to_nat k)); rewrite ?Z2Nat.id by lia;
    try assumption; try lia.
  reflexivity.
Qed.

(** The walk is never entered on an empty collection. *)
Corollary compute_streak_empty (today : Z) (fuel : nat) :
  datetime.valid today -> (0 < fuel)%nat ->
  compute_streak fuel [] today = Some (Ok 0).
Proof.
  intros Hv Hf. unfold compute_streak.
  rewrite (streak_loop_run [] 0 fuel 0 today Hv); try reflexivity.
  - unfold datetime.valid, datetime.MINORDINAL in Hv. lia.
  - exact Hf.
  - intros i Hi. lia.
  - apply not_elem_of_nil.
Qed.

(** No commit today: the streak is 0. *)
Corollary compute_streak_today_absent (dates : list string) (today : Z) (fuel : nat) :
  datetime.valid today -> (0 < fuel)%nat ->
  datetime.isoformat today ∉ dates ->
  compute_streak fuel dates today = Some (Ok 0).
Proof.
  intros Hv Hf Hout. unfold compute_streak.
  rewrite (streak_loop_run dates 0 fuel 0 today Hv); try reflexivity.
  - unfold datetime.valid, datetime.MINORDINAL in Hv. lia.
  - exact Hf.
  - intros i Hi. lia.
  - rewrite Z.sub_0_r. exact Hout.
Qed.

(** Today and the four days before it, but not the day before those: 5. *)
Corollary compute_streak_five_days (dates : list string) (today : Z) (fuel : nat) :
  datetime.valid today -> 5 < today -> (5 < fuel)%nat ->
  (forall i, 0 <= i < 5 -> datetime.isoformat (today - i) ∈ dates) ->
  datetime.isoformat (today - 5) ∉ dates ->
  compute_streak fuel dates today = Some (Ok 5).
Proof.
  intros Hv H5 Hf Hin Hout. unfold compute_streak.
  rewrite (streak_loop_run dates 5 fuel 0 today Hv); try reflexivity; try assumption;
    lia.
Qed.

Lemma compute_streak_counts_witness :
  datetime.valid nov_4
  /\ (datetime.isoformat (nov_4 - 5) ∉ five_days)
  /\ compute_streak 6 five_days nov_4 = Some (Ok 5).
Proof.
  assert (Hv : datetime.valid nov_4) by (unfold datetime.valid; cbv; intuition discriminate).
  assert (Hout : datetime.isoformat (nov_4 - 5) ∉ five_days)
    by (apply (bool_decide_unpack _); vm_compute; exact I).
  split; [exact Hv | split; [exact Hout|]].
  apply (compute_streak_counts five_days nov_4 5 6 Hv).
  - unfold nov_4. lia.
  - cbn. lia.
  - intros i Hi.
    assert (Hc : i = 0 \/ i = 1 \/ i = 2 \/ i = 3 \/ i = 4) by lia.
    destruct Hc as [-> | [-> | [-> | [-> | ->]]]];
      apply (bool_decide_unpack _); vm_compute; exact I.
  - exact Hout.
Defined.

(** When every day back to 0001-01-01 is in the collection, the walk steps
    below [date.min]. *)
Lemma compute_streak_min_date_raises :
  datetime.isoformat 1 ∈ ["0001-01-01"]
  /\ forall fuel, (1 < fuel)%nat ->
       compute_streak fuel ["0001-01-01"] 1 = Some (Raise OverflowError).
Proof.
  split; [apply (bool_decide_unpack _); vm_compute; exact I|].
  intros [|[|fuel]] Hf; try lia. reflexivity.
Qed.

Lemma counted_days_bound (dates : list string) (today s : Z) :
  datetime.valid today -> 0 <= s <= today ->
  (forall i, 0 <= i < s -> datetime.isoformat (today - i) ∈ dates) ->
  s <= Z.of_nat (length (remove_dups dates)).
Proof.
  intros Hv Hs Hin.
  set (days := (fun i : nat => today - Z.of_nat i) <$> seq 0 (Z.to_nat s)).
  assert (Hdays : forall d, d ∈ days -> today - s < d <= today).
  { intros d Hd. unfold days in Hd. apply list_elem_of_fmap in Hd.
    destruct Hd as (i & -> & Hi). apply elem_of_seq in Hi. lia. }
  assert (Hnd : NoDup (datetime.isoformat <$> days)).
  { apply NoDup_fmap_2_strong.
    - intros x y Hx Hy E. apply Hdays in Hx, Hy.
      unfold datetime.valid, datetime.MINORDINAL in *.
      apply isoformat_inj; unfold datetime.valid, datetime.MINORDINAL; try lia. exact E.
    - unfold days. apply NoDup_fmap_2_strong; [|apply NoDup_seq].
      intros x y _ _ E. lia. }
  assert (Hsub : datetime.isoformat <$> days ⊆+ remove_dups dates).
  { apply NoDup_submseteq; [exact Hnd|].
    intros x Hx. apply elem_of_remove_dups.
    apply list_elem_of_fmap in Hx. destruct Hx as (d & -> & Hd).
    unfold days in Hd. apply list_elem_of_fmap in Hd.
    destruct Hd as (i & -> & Hi). apply elem_of_seq in Hi. apply Hin. lia. }
  apply submseteq_length in Hsub.
  rewrite length_fmap in Hsub. unfold days in Hsub.
  rewrite length_fmap, length_seq in Hsub. lia.
Qed.

Lemma streak_loop_total (dates : list string) (today : Z) :
  datetime.valid today ->
  forall (fuel : nat) (streak day : Z),
    datetime.valid day -> day = today - streak -> 0 <= streak ->
    (forall i, 0 <= i < streak -> datetime.isoformat (today - i) ∈ dates) ->
    (length (remove_dups dates) < fuel + Z.to_nat streak)%nat ->
    exists r, streak_loop fuel dates streak day = Some r
              /\ forall k, r = Ok k -> 0 <= k <= Z.of_nat (length (remove_dups dates)).
Proof.
  intros Hv. induction fuel as [|fuel IH]; intros streak day Hd E Hs Hin Hf.
  - exfalso.
    pose proof (counted_days_bound dates today streak Hv) as B.
    unfold datetime.valid, datetime.MINORDINAL in Hd.
    specialize (B ltac:(lia) Hin). lia.
  - cbn [streak_loop].
    destruct (decide (datetime.isoformat day ∈ dates)) as [Hm | Hm].
    + unfold datetime.valid, datetime.MINORDINAL in Hd.
      destruct (Z.eq_dec day 1) as [-> | Hne].
      * rewrite sub_days_overflow by lia. eexists; split; [reflexivity|]. discriminate.
      * rewrite sub_days_ok by lia.
        apply IH.
        -- unfold datetime.valid, datetime.MINORDINAL. lia.
        -- lia.
        -- lia.
        -- intros i Hi. destruct (Z.eq_dec i streak) as [-> | Hne'].
           ++ replace (today - streak) with day by lia. exact Hm.
           ++ apply Hin. lia.
        -- lia.
    + eexists; split; [reflexivity|]. intros k [= <-].
      pose proof (counted_days_bound dates today streak Hv) as B.
      unfold datetime.valid, datetime.MINORDINAL in Hd.
      specialize (B ltac:(lia) Hin). lia.
Qed.

(** C10.  For every collection of date strings and every starting date, the
    backward walk of [compute_streak] ends within one more evaluation of its
    condition than there are distinct strings in the collection, and a
    returned streak is at most the number of distinct strings. *)
Theorem compute_streak_terminates (dates : list string) (today : Z) (fuel : nat) :
  datetime.valid today ->
  (length (remove_dups dates) < fuel)%nat ->
  exists r, compute_streak fuel dates today = Some r
            /\ forall k, r = Ok k -> 0 <= k <= Z.of_nat (length (remove_dups dates)).
Proof.
  intros Hv Hf. unfold compute_streak.
  apply (streak_loop_total dates today Hv); auto; try lia.
Qed.

Lemma compute_streak_terminates_witness :
  exists r, compute_streak 6 five_days nov_4 = Some r
            /\ forall k, r = Ok k -> 0 <= k <= Z.of_nat (length (remove_dups five_days)).
Proof.
  apply (compute_streak_terminates five_days nov_4 6).
  - unfold datetime.valid; cbv; intuition discriminate.
  - vm_compute. lia.
Defined.

(** ** [get_weekly_streak_increase] *)

Lemma str_ge_isoformat a b :
  datetime.valid a -> datetime.valid b ->
  str_ge (datetime.isoformat a) (datetime.isoformat b) = true <-> b <= a.
Proof.
  intros Ha Hb. unfold str_ge. rewrite isoformat_compare by assumption.
  destruct (Z.compare_spec a b); split; intros; try lia; try reflexivity; discriminate.
Qed.

(** C8 (amended).  For every list of ISO dates and every [today] later than
    0001-01-07, [get_weekly_streak_increase] returns the number of entries
    whose date is on or after [today] minus 7 days. *)
Theorem weekly_increase_counts (days : list Z) (today : Z) :
  datetime.valid today -> 7 < today ->
  Forall datetime.valid days ->
  get_weekly_streak_increase (datetime.isoformat <$> days) today
  = Ok (Z.of_nat (length (filter (fun d => today - 7 <= d) days))).
Proof.
  intros Hv H7 Hdays. unfold get_weekly_streak_increase.
  unfold datetime.valid, datetime.MINORDINAL in Hv.
  rewrite sub_days_ok by lia. f_equal. f_equal.
  assert (V7 : datetime.valid (today - 7))
    by (unfold datetime.valid, datetime.MINORDINAL; lia).
  induction Hdays as [|d days Hd _ IH]; [reflexivity|].
  rewrite fmap_cons, !filter_cons.
  pose proof (str_ge_isoformat d (today - 7) Hd V7) as Hge.
  destruct (decide (str_ge (datetime.isoformat d) (datetime.isoformat (today - 7)) = true));
    destruct (decide (today - 7 <= d)); cbn [length]; try (f_equal; exact IH);
    try exact IH; tauto.
Qed.

Lemma weekly_increase_counts_witness :
  get_weekly_streak_increase
    (datetime.isoformat <$> [nov_4; nov_4 - 3; nov_4 - 10]) nov_4
  = Ok (Z.of_nat (length (filter (fun d => nov_4 - 7 <= d) [nov_4; nov_4 - 3; nov_4 - 10]))).
Proof.
  apply (weekly_increase_counts [nov_4; nov_4 - 3; nov_4 - 10] nov_4).
  - unfold datetime.valid; cbv; intuition discriminate.
  - unfold nov_4. lia.
  - repeat constructor; cbv; discriminate.
Defined.

(** Today, three days ago and ten days ago: two of them are within the week. *)
Lemma weekly_increase_example (today : Z) :
  datetime.valid today -> 10 < today ->
  get_weekly_streak_increase
    [datetime.isoformat today; datetime.isoformat (today - 3);
     datetime.isoformat (today - 10)] today
  = Ok 2.
Proof.
  intros Hv H10. unfold get_weekly_streak_increase.
  unfold datetime.valid, datetime.MINORDINAL in Hv.
  rewrite sub_days_ok by lia.
  assert (V : forall k, 0 <= k <= 10 -> datetime.valid (today - k))
    by (intros k Hk; unfold datetime.valid, datetime.MINORDINAL; lia).
  pose proof (str_ge_isoformat (today - 0) (today - 7) (V 0 ltac:(lia)) (V 7 ltac:(lia))) as G0.
  pose proof (str_ge_isoformat (today - 3) (today - 7) (V 3 ltac:(lia)) (V 7 ltac:(lia))) as G3.
  pose proof (str_ge_isoformat (today - 10) (today - 7) (V 10 ltac:(lia)) (V 7 ltac:(lia))) as G10.
  rewrite Z.sub_0_r in G0.
  rewrite !filter_cons, filter_nil.
  rewrite decide_True by (apply G0; lia).
  rewrite decide_True by (apply G3; lia).
  rewrite decide_False by (rewrite G10; lia).
  reflexivity.
Qed.

(** In the first week of year 1 there is no "seven days ago". *)
Lemma weekly_increase_min_date_raises :
  get_weekly_streak_increase ["0001-01-01"] 1 = Raise OverflowError.
Proof. reflexivity. Qed.

(** ** Running the requests *)

Ltac run_step :=
  unfold bind, ret, raise, lift, requests_get, raise_for_status, resp_json,
    as_repos, as_commits; cbn [fst snd].

Lemma bind_ok_inv {A B : Type} (m : M A) (k : A -> M B) (w : world) (t t' : nat) (b : B) :
  bind m k w t = (Ok b, t') ->
  exists a t1, m w t = (Ok a, t1) /\ k a w t1 = (Ok b, t').
Proof.
  unfold bind. destruct (m w t) as [[a | e] t1]; [|discriminate].
  intros H. exists a, t1. split; [reflexivity | exact H].
Qed.

(** ** [get_daily_commit_dates] *)

(** C1 (the code departs from it).  When the repository listing is answered
    403, [get_daily_commit_dates] does not return an empty list: the
    [HTTPError] of [raise_for_status] leaves the function. *)
Theorem daily_dates_listing_403_raises (secrets : gmap string string) (user : string)
    (months : Z) (now : datetime_t) (t : nat) :
  get_daily_commit_dates secrets user months now world_forbidden t
  = (Raise (HTTPError 403), S t).
Proof. reflexivity. Qed.

(** The same for any 4xx/5xx answer and for a failure below HTTP. *)
Lemma daily_dates_listing_failure (secrets : gmap string string) (user : string)
    (months : Z) (now : datetime_t) (w : world) (t : nat) :
  (forall rq, w t rq = Unreachable
              \/ exists s b, w t rq = Response s b /\ 400 <= s < 600) ->
  exists e, get_daily_commit_dates secrets user months now w t = (Raise e, S t).
Proof.
  intros Hw. unfold get_daily_commit_dates, github_request.
  unfold bind at 1. unfold bind at 1. unfold requests_get at 1.
  match goal with |- context [w t ?rq] => destruct (Hw rq) as [E | (s & b & E & Hs)] end;
    rewrite E.
  - eexists; reflexivity.
  - unfold bind at 1. unfold raise_for_status at 1. cbn [fst].
    destruct (Z.leb_spec 400 s); destruct (Z.ltb_spec s 600); try lia.
    eexists; reflexivity.
Qed.

Lemma add_dates_app (a b : list commit) (dates : gset string) :
  add_dates (a ++ b)%list dates = add_dates b (add_dates a dates).
Proof. revert dates. induction a as [|c a IH]; intros dates; cbn; [reflexivity | apply IH]. Qed.

(** A repository whose commits cannot be fetched is skipped, and the pass
    goes on with the next one. *)
Lemma daily_repos_skips_failures (secrets : gmap string string) (user : string)
    (prms : list (string * string)) (w : world) (repos : list repo) :
  forall (answers : list (option (list commit))) (dates : gset string) (t : nat),
    length repos = length answers ->
    (forall i a, answers !! i = Some a -> forall rq, w (t + i)%nat rq = reply_of a) ->
    daily_repos secrets user prms repos dates w t
    = (Ok (add_dates (kept_commits answers) dates), (t + length repos)%nat).
Proof.
  induction repos as [|r repos IH]; intros answers dates t Hlen Hw.
  - destruct answers; [|discriminate]. cbn. unfold ret. f_equal. lia.
  - destruct answers as [|a answers]; [discriminate|].
    cbn [daily_repos]. unfold bind at 1. unfold try_except, github_request.
    unfold bind at 1. unfold bind at 1. unfold requests_get at 1.
    pose proof (Hw 0%nat a eq_refl) as H0. rewrite Nat.add_0_r in H0. rewrite H0.
    assert (Hrest : forall dates',
               daily_repos secrets user prms repos dates' w (S t)
               = (Ok (add_dates (kept_commits answers) dates'),
                  (t + length (r :: repos))%nat)).
    { intros dates'. rewrite (IH answers dates' (S t)).
      - f_equal. cbn [length]. lia.
      - cbn in Hlen. lia.
      - intros i a' Ha rq. specialize (Hw (S i) a' Ha rq).
        replace (S t + i)%nat with (t + S i)%nat by lia. exact Hw. }
    unfold kept_commits. rewrite fmap_cons. cbn [concat]. rewrite add_dates_app.
    destruct a as [l|]; cbn.
    + apply Hrest.
    + apply Hrest.
Qed.

(** ** [get_repo_count] *)

Lemma count_repo_items (l : list repo) :
  length (filter (fun r => get_fork r = false) (IRepo <$> l))
  = length (filter (fun r => fork r = false) l).
Proof.
  induction l as [|r l IH]; [reflexivity|].
  rewrite fmap_cons, !filter_cons. cbn [get_fork].
  destruct (decide (fork r = false)); cbn [length]; rewrite IH; reflexivity.
Qed.

Lemma repo_pages_run (user : string) (hdrs : list (string * string)) (w : world)
    (s : Z) (b : json) (last : list repo) (pages : list (list repo)) :
  (s <> 200 /\ last = [] \/ s = 200 /\ b = JRepos last /\ (length last < 100)%nat) ->
  forall (fuel : nat) (acc : list item) (page : Z) (t : nat),
    (length pages < fuel)%nat ->
    (forall i p, pages !! i = Some p ->
                 (100 <= length p)%nat
                 /\ forall rq, w (t + i)%nat rq = Response 200 (JRepos p)) ->
    (forall rq, w (t + length pages)%nat rq = Response s b) ->
    repo_pages fuel user hdrs acc page w t
    = (Ok (Some (acc ++ (IRepo <$> concat pages ++ last))%list),
       (t + length pages + 1)%nat).
Proof.
  intros Hlast. induction pages as [|p pages IH]; intros fuel acc page t Hf Hp Hl.
  - destruct fuel as [|fuel]; [cbn in Hf; lia|].
    cbn [repo_pages length concat app]. run_step.
    rewrite Nat.add_0_r in Hl. rewrite Hl. cbn [fst snd].
    destruct Hlast as [[Hs ->] | (-> & -> & Hlen)].
    + destruct (Z.eqb_spec s 200) as [|_]; [contradiction|]. cbn.
      rewrite app_nil_r. f_equal. lia.
    + cbn [Z.eqb Pos.eqb negb]. unfold ret. destruct last as [|r last].
      * cbn. rewrite app_nil_r. f_equal. lia.
      * cbn [items]. rewrite !fmap_cons. cbv beta iota.
        destruct (Z.ltb_spec (Z.of_nat (length (IRepo r :: (IRepo <$> last)))) 100) as [_|Hge].
        -- f_equal. lia.
        -- cbn [length] in Hge, Hlen. rewrite length_fmap in Hge. lia.
  - destruct fuel as [|fuel]; [cbn in Hf; lia|].
    cbn [repo_pages]. run_step.
    destruct (Hp 0%nat p eq_refl) as [Hlen Hw].
    rewrite Nat.add_0_r in Hw. rewrite Hw. cbn [fst snd Z.eqb Pos.eqb negb].
    unfold ret. destruct p as [|r p]; [cbn in Hlen; lia|].
    cbn [items]. rewrite !fmap_cons. cbv beta iota.
    destruct (Z.ltb_spec (Z.of_nat (length (IRepo r :: (IRepo <$> p)))) 100) as [Hlt|_].
    { cbn [length] in Hlt, Hlen. rewrite length_fmap in Hlt. lia. }
    rewrite (IH fuel _ _ (S t)).
    + cbn [concat length]. rewrite <- fmap_cons, !fmap_app, <- !app_assoc. f_equal. lia.
    + cbn in Hf. lia.
    + intros i q Hq. specialize (Hp (S i) q Hq).
      replace (S t + i)%nat with (t + S i)%nat by lia. exact Hp.
    + intros rq. specialize (Hl rq). cbn [length] in Hl.
      replace (S t + length pages)%nat with (t + S (length pages))%nat by lia. exact Hl.
Qed.

(** The loop against answers of any kind: it keeps the entries of every
    answer with status 200 and stops at the first answer that is not 200 or
    has fewer than 100 entries; the result is the number of non-fork
    repositories among everything kept, the answers before a failing one
    included. *)
Lemma repo_count_keeps_fetched_pages (secrets : gmap string string) (user : string)
    (use_token : bool) (w : world) (t fuel : nat) (pages : list (list repo))
    (s : Z) (b : json) (last : list repo) :
  (length pages < fuel)%nat ->
  (forall i p, pages !! i = Some p ->
               (100 <= length p)%nat
               /\ forall rq, w (t + i)%nat rq = Response 200 (JRepos p)) ->
  (forall rq, w (t + length pages)%nat rq = Response s b) ->
  (s <> 200 /\ last = [] \/ s = 200 /\ b = JRepos last /\ (length last < 100)%nat) ->
  get_repo_count secrets fuel user use_token w t
  = (Ok (Some (Z.of_nat (length (filter (fun r => fork r = false)
                                   (concat pages ++ last)%list)))),
     (t + length pages + 1)%nat).
Proof.
  intros Hf Hp Hl Hlast. unfold get_repo_count. unfold bind at 1.
  rewrite (repo_pages_run user _ w s b last pages Hlast fuel [] 1 t Hf Hp Hl).
  unfold ret. cbn [option_map app]. rewrite count_repo_items. reflexivity.
Qed.

Lemma repo_count_keeps_fetched_pages_witness :
  get_repo_count ∅ 5 "duckola" true world_second_page_fails 0%nat
  = (Ok (Some (Z.of_nat
                 (length (filter (fun r => fork r = false)
                            (concat [numbered_repos 100 "2024-05-01T00:00:00Z"] ++ [])%list)))),
     (0 + 1 + 1)%nat).
Proof.
  apply (repo_count_keeps_fetched_pages ∅ "duckola" true world_second_page_fails 0 5
           [numbered_repos 100 "2024-05-01T00:00:00Z"] 500 JInvalid []).
  - cbn. lia.
  - intros [|i] p Hp; [|destruct i; discriminate Hp].
    injection Hp as <-. split; [vm_compute; lia | intros rq; reflexivity].
  - intros rq. reflexivity.
  - left. split; [lia | reflexivity].
Defined.

(** An upstream that answers the bare request with a hundred entries and
    then fails: the hundred are counted. *)
Lemma repo_count_partial_after_failure :
  world_second_page_fails 1%nat (mk_request "" [] []) = Response 500 JInvalid
  /\ get_repo_count ∅ 5 "duckola" true world_second_page_fails 0%nat = (Ok (Some 100), 2%nat)
  /\ fst (get_repo_count ∅ 5 "duckola" true world_second_page_fails 0%nat) <> Ok (Some 0).
Proof.
  split; [reflexivity|]. split; [vm_compute; reflexivity|].
  vm_compute. discriminate.
Qed.

(** C3 (the code departs from it).  An account with 101 repositories, none
    of them a fork, behind an upstream that serves a page of 100 when asked
    for it and thirty entries when no page size is named.  [get_repo_count]
    builds [per_page] and [page] on every turn but sends neither, so it is
    answered with the thirty entries, takes the short page for the last one
    and returns 30 after a single request, however long it may loop: the
    pages the upstream holds ready are never asked for. *)
Theorem repo_count_first_page_only :
  (forall fuel,
      get_repo_count ∅ (S fuel) "duckola" true world_paged_api 0%nat
      = (Ok (Some 30), 1%nat))
  /\ Z.of_nat (length (filter (fun r => fork r = false) many_repos)) = 101
  /\ (forall t hdrs,
         world_paged_api t
           (mk_request "https://api.github.com/users/duckola/repos" hdrs
              [("type", "owner"); ("per_page", "100"); ("page", "1")])
         = Response 200 (JRepos (take 100 many_repos))
         /\ world_paged_api t
              (mk_request "https://api.github.com/users/duckola/repos" hdrs
                 [("type", "owner"); ("per_page", "100"); ("page", "2")])
            = Response 200 (JRepos (drop 100 many_repos))).
Proof.
  split; [|split].
  - intros fuel. vm_compute. reflexivity.
  - vm_compute. reflexivity.
  - intros t hdrs. split; reflexivity.
Qed.

Lemma repo_pages_full_page_loops (user : string) (hdrs : list (string * string))
    (w : world) (p : list repo) :
  (100 <= length p)%nat ->
  (forall t rq, w t rq = Response 200 (JRepos p)) ->
  forall (fuel : nat) (acc : list item) (page : Z) (t : nat),
    repo_pages fuel user hdrs acc page w t = (Ok None, (t + fuel)%nat).
Proof.
  intros Hlen Hw. induction fuel as [|fuel IH]; intros acc page t.
  - cbn. unfold ret. f_equal. lia.
  - cbn [repo_pages]. run_step. rewrite Hw. cbn [fst snd Z.eqb Pos.eqb negb].
    unfold ret. destruct p as [|r p]; [cbn in Hlen; lia|].
    cbn [items]. rewrite !fmap_cons. cbv beta iota.
    destruct (Z.ltb_spec (Z.of_nat (length (IRepo r :: (IRepo <$> p)))) 100) as [Hlt|_].
    { cbn [length] in Hlt, Hlen. rewrite length_fmap in Hlt. lia. }
    rewrite IH. f_equal. lia.
Qed.

(** ** [st.cache_data] *)

Lemma cache_data_second_call {K V : Type} `{Countable K} (ttl : Z) (f1 f2 : K -> M V)
    (key : K) (clock1 clock2 : Z) (store store' : gmap K (Z * V))
    (w1 w2 : world) (t t' t2 : nat) (v : V) :
  match store !! key with
  | Some (stored, _) => stored + ttl <= clock1
  | None => True
  end ->
  cache_data ttl f1 key clock1 store w1 t = (Ok v, t', store') ->
  clock2 < clock1 + ttl ->
  cache_data ttl f2 key clock2 store' w2 t2 = (Ok v, t2, store').
Proof.
  intros Hfresh Hrun Hc. unfold cache_data in Hrun.
  assert (Hmiss : match f1 key w1 t with
                  | (Ok v0, t0) => (Ok v0, t0, <[key := (clock1, v0)]> store)
                  | (Raise e, t0) => (Raise e, t0, store)
                  end = (Ok v, t', store')).
  { destruct (store !! key) as [[stored v0]|]; [|exact Hrun].
    destruct (Z.ltb_spec clock1 (stored + ttl)); [lia | exact Hrun]. }
  clear Hrun. destruct (f1 key w1 t) as [[v0 | e] t0]; [|discriminate].
  injection Hmiss as -> -> <-.
  unfold cache_data. rewrite lookup_insert_eq.
  destruct (Z.ltb_spec clock2 (clock1 + ttl)); [reflexivity | lia].
Qed.

(** C5 (amended).  For the two decorated operations, [get_daily_commit_dates]
    and [get_github_monthly_commits]: when a call at time [clock1] finds no
    live entry for its arguments and returns a value, a call with the same
    arguments before [clock1 + 3600] returns that same value, makes no network
    call and leaves the store as it is, whatever the upstream would answer. *)
Theorem cached_operations_second_call (secrets : gmap string string) (user : string)
    (months : Z) (now1 now2 : datetime_t) (clock1 clock2 : Z) (w1 w2 : world)
    (t t2 : nat) :
  clock2 < clock1 + 3600 ->
  (forall store dates t' store',
      match store !! (user, months) with
      | Some (stored, _) => stored + 3600 <= clock1
      | None => True
      end ->
      get_daily_commit_dates_cached secrets user months now1 clock1 store w1 t
      = (Ok dates, t', store') ->
      get_daily_commit_dates_cached secrets user months now2 clock2 store' w2 t2
      = (Ok dates, t2, store'))
  /\ (forall store df t' store',
      match store !! (user, months) with
      | Some (stored, _) => stored + 3600 <= clock1
      | None => True
      end ->
      get_github_monthly_commits_cached secrets user months now1 clock1 store w1 t
      = (Ok df, t', store') ->
      get_github_monthly_commits_cached secrets user months now2 clock2 store' w2 t2
      = (Ok df, t2, store')).
Proof.
  intros Hc. split; intros store v t' store' Hfresh Hrun.
  - unfold get_daily_commit_dates_cached in *.
    eapply cache_data_second_call; eauto.
  - unfold get_github_monthly_commits_cached in *.
    eapply cache_data_second_call; eauto.
Qed.

Lemma cached_operations_second_call_witness :
  get_daily_commit_dates_cached ∅ "duckola" 5 (noon 2025 3 1) 100
    (<[("duckola", 5) := (0, three_dates)]> ∅) world_forbidden 7%nat
  = (Ok three_dates, 7%nat, <[("duckola", 5) := (0, three_dates)]> ∅).
Proof.
  apply (proj1 (cached_operations_second_call ∅ "duckola" 5 (noon 2025 3 1) (noon 2025 3 1)
                  0 100 world_one_repo world_forbidden 0 7 ltac:(lia))
           ∅ three_dates 2%nat).
  - exact I.
  - vm_compute. reflexivity.
Defined.

(** [get_repo_count] is not decorated: a second call goes to the network
    again. *)
Lemma repo_count_not_cached :
  get_repo_count ∅ 5 "duckola" true world_no_repos 0%nat = (Ok (Some 0), 1%nat)
  /\ get_repo_count ∅ 5 "duckola" true world_no_repos 1%nat = (Ok (Some 0), 2%nat)
  /\ snd (get_repo_count ∅ 5 "duckola" true world_no_repos 1%nat) <> 1%nat.
Proof. repeat split; vm_compute; try reflexivity. discriminate. Qed.

(** So is [get_repos_created_this_year]. *)
Lemma repos_created_this_year_not_cached :
  get_repos_created_this_year ∅ "duckola" nov_4 world_no_repos 0%nat = (Ok 0, 1%nat)
  /\ get_repos_created_this_year ∅ "duckola" nov_4 world_no_repos 1%nat = (Ok 0, 2%nat).
Proof. split; vm_compute; reflexivity. Qed.

(** ** [get_repos_created_this_year] *)

(** C9 (the code departs from it).  For an account with 101 repositories, all
    created in 2025, [get_repos_created_this_year] in 2025 returns 100: it
    asks for one page of 100 and never for the second. *)
Theorem repos_this_year_first_page_only :
  get_repos_created_this_year ∅ "duckola" nov_4 world_many_repos 0%nat = (Ok 100, 1%nat)
  /\ length (filter (fun r => String.prefix "2025" (created_at r) = true) many_repos)
     = 101%nat
  /\ datetime.year nov_4 = 2025.
Proof. repeat split; vm_compute; reflexivity. Qed.

(** ** [get_github_monthly_commits] *)

Lemma count_months_app (a b : list commit) (mc : gmap string Z) :
  count_months (a ++ b)%list mc = count_months b (count_months a mc).
Proof. revert mc. induction a as [|c a IH]; intros mc; cbn; [reflexivity | apply IH]. Qed.

Lemma count_months_lookup (cs : list commit) :
  forall (mc : gmap string Z) (m : string),
    count_months cs mc !! m
    = if commits_in_month m cs =? 0 then mc !! m
      else Some (default 0 (mc !! m) + commits_in_month m cs).
Proof.
  unfold commits_in_month.
  induction cs as [|c cs IH]; intros mc m; [reflexivity|].
  cbn [count_months]. rewrite IH. rewrite filter_cons. fold (month_of c).
  destruct (decide (month_of c = m)) as [E0 | Hne]; [subst m|].
  - rewrite lookup_insert_eq. cbn [length default].
    generalize (length (filter (fun c0 => month_of c0 = month_of c) cs)). intros N.
    destruct (Z.eqb_spec (Z.of_nat N) 0) as [E | E];
      destruct (Z.eqb_spec (Z.of_nat (S N)) 0); try lia; unfold id; f_equal; lia.
  - rewrite lookup_insert_ne by assumption. reflexivity.
Qed.

Lemma count_months_empty_lookup (cs : list commit) (m : string) (n : Z) :
  count_months cs ∅ !! m = Some n <-> n = commits_in_month m cs /\ 0 < n.
Proof.
  rewrite count_months_lookup, lookup_empty. cbn [default].
  assert (0 <= commits_in_month m cs) by (unfold commits_in_month; lia).
  destruct (Z.eqb_spec (commits_in_month m cs) 0); split.
  - discriminate.
  - intros [-> ?]. lia.
  - intros [= <-]. lia.
  - intros [-> _]. f_equal.
Qed.

Lemma commits_in_month_pos (m : string) (cs : list commit) :
  0 < commits_in_month m cs -> exists c, c ∈ cs /\ month_of c = m.
Proof.
  unfold commits_in_month. intros H.
  destruct (filter (fun c => month_of c = m) cs) as [|c l] eqn:E; [cbn in H; lia|].
  exists c.
  assert (Hc : c ∈ filter (fun c => month_of c = m) cs) by (rewrite E; left).
  apply list_elem_of_filter in Hc. tauto.
Qed.

Lemma count_months_positive (cs : list commit) (mc : gmap string Z) :
  counts_positive mc -> counts_positive (count_months cs mc).
Proof.
  intros Hmc m n. rewrite count_months_lookup.
  assert (0 <= commits_in_month m cs) by (unfold commits_in_month; lia).
  destruct (Z.eqb_spec (commits_in_month m cs) 0); [apply Hmc|].
  intros [= <-]. destruct (mc !! m) as [n1|] eqn:E; cbn [default].
  - specialize (Hmc m n1 E). unfold id. lia.
  - lia.
Qed.

Lemma monthly_repos_run (username : string) (hdrs prms : list (string * string))
    (w : world) (repos : list repo) :
  forall (answers : list (Z * list commit)) (mc : gmap string Z) (t : nat),
    length repos = length answers ->
    (forall i a, answers !! i = Some a ->
                 forall rq, w (t + i)%nat rq = Response (fst a) (JCommits (snd a))) ->
    monthly_repos username hdrs prms repos mc w t
    = (Ok (count_months (counted_commits answers) mc), (t + length repos)%nat).
Proof.
  induction repos as [|r repos IH]; intros answers mc t Hlen Hw.
  - destruct answers; [|discriminate]. cbn. unfold ret. f_equal. lia.
  - destruct answers as [|a answers]; [discriminate|].
    cbn [monthly_repos]. run_step.
    pose proof (Hw 0%nat a eq_refl) as H0. rewrite Nat.add_0_r in H0. rewrite H0.
    cbn [fst snd].
    unfold counted_commits. rewrite fmap_cons. cbn [concat].
    rewrite count_months_app.
    assert (Hrest : forall mc',
               monthly_repos username hdrs prms repos mc' w (S t)
               = (Ok (count_months (counted_commits answers) mc'),
                  (t + length (r :: repos))%nat)).
    { intros mc'. rewrite (IH answers mc' (S t)).
      - f_equal. cbn [length]. lia.
      - cbn in Hlen. lia.
      - intros i a' Ha rq. specialize (Hw (S i) a' Ha rq).
        replace (S t + i)%nat with (t + S i)%nat by lia. exact Hw. }
    destruct (Z.eqb_spec (fst a) 200) as [E | E]; cbn; apply Hrest.
Qed.

Lemma monthly_repos_inv (P : gmap string Z -> Prop) (username : string)
    (hdrs prms : list (string * string)) (w : world) :
  (forall cs mc, P mc ->
     (cs = [] \/ exists t rq c l, cs = c :: l /\ w t rq = Response 200 (JCommits cs)) ->
     P (count_months cs mc)) ->
  forall (repos : list repo) (mc : gmap string Z) (t : nat) mc' t',
    P mc ->
    monthly_repos username hdrs prms repos mc w t = (Ok mc', t') -> P mc'.
Proof.
  intros Hstep. induction repos as [|r repos IH]; intros mc t mc' t' Hmc Hrun.
  - cbn in Hrun. unfold ret in Hrun. injection Hrun as <- _. exact Hmc.
  - cbn [monthly_repos] in Hrun. unfold bind at 1 in Hrun.
    unfold requests_get at 1 in Hrun.
    destruct (w t _) as [|s b] eqn:Ew; [discriminate|].
    cbn [fst snd] in Hrun.
    destruct (Z.eqb_spec s 200) as [-> | Hs].
    + unfold bind at 1 in Hrun. unfold resp_json at 1 in Hrun. cbn [snd] in Hrun.
      destruct b as [l | l |]; unfold ret, raise in Hrun; try discriminate.
      * unfold bind at 1 in Hrun. unfold as_commits in Hrun.
        destruct l; [|discriminate]. cbn in Hrun.
        eapply IH; [|exact Hrun]. exact Hmc.
      * unfold bind at 1 in Hrun. unfold as_commits, ret in Hrun.
        eapply IH; [|exact Hrun]. apply Hstep; [exact Hmc|].
        destruct l as [|c l]; [left; reflexivity|].
        right. eexists _, _, c, l. split; [reflexivity | exact Ew].
    + eapply IH; [|exact Hrun]. exact Hmc.
Qed.

Lemma digit_val_inj (c1 c2 : ascii) (v : Z) :
  digit_val c1 = Some v -> digit_val c2 = Some v -> c1 = c2.
Proof.
  unfold digit_val. cbv zeta. intros H1 H2.
  destruct ((48 <=? Z.of_nat (nat_of_ascii c1)) && (Z.of_nat (nat_of_ascii c1) <=? 57));
    [|discriminate].
  destruct ((48 <=? Z.of_nat (nat_of_ascii c2)) && (Z.of_nat (nat_of_ascii c2) <=? 57));
    [|discriminate].
  injection H1 as H1. injection H2 as H2.
  rewrite <- (ascii_nat_embedding c1), <- (ascii_nat_embedding c2). f_equal. lia.
Qed.

Lemma digit_val_range (c : ascii) (v : Z) : digit_val c = Some v -> 0 <= v <= 9.
Proof.
  unfold digit_val. cbv zeta. intros H.
  destruct (Z.leb_spec 48 (Z.of_nat (nat_of_ascii c)));
    destruct (Z.leb_spec (Z.of_nat (nat_of_ascii c)) 57); cbn in H; try discriminate.
  injection H as <-. lia.
Qed.

Lemma to_datetime_inj (s1 s2 : string) (k : month_key) :
  to_datetime s1 = Some k -> to_datetime s2 = Some k -> s1 = s2.
Proof.
  destruct k as [ky km]. intros H1 H2.
  destruct s1 as [|a1 [|b1 [|c1 [|d1 [|p1 [|e1 [|f1 [|? ?]]]]]]]]; try discriminate.
  destruct s2 as [|a2 [|b2 [|c2 [|d2 [|p2 [|e2 [|f2 [|? ?]]]]]]]]; try discriminate.
  cbn [to_datetime] in H1, H2.
  destruct (digit_val a1) as [va1|] eqn:Ea1; [|discriminate].
  destruct (digit_val b1) as [vb1|] eqn:Eb1; [|discriminate].
  destruct (digit_val c1) as [vc1|] eqn:Ec1; [|discriminate].
  destruct (digit_val d1) as [vd1|] eqn:Ed1; [|discriminate].
  destruct (digit_val e1) as [ve1|] eqn:Ee1; [|discriminate].
  destruct (digit_val f1) as [vf1|] eqn:Ef1; [|discriminate].
  destruct (digit_val a2) as [va2|] eqn:Ea2; [|discriminate].
  destruct (digit_val b2) as [vb2|] eqn:Eb2; [|discriminate].
  destruct (digit_val c2) as [vc2|] eqn:Ec2; [|discriminate].
  destruct (digit_val d2) as [vd2|] eqn:Ed2; [|discriminate].
  destruct (digit_val e2) as [ve2|] eqn:Ee2; [|discriminate].
  destruct (digit_val f2) as [vf2|] eqn:Ef2; [|discriminate].
  cbv zeta in H1, H2.
  destruct (Ascii.eqb_spec p1 "-"%char) as [-> |]; [|discriminate].
  destruct (Ascii.eqb_spec p2 "-"%char) as [-> |]; [|discriminate].
  cbn [andb] in H1, H2.
  match type of H1 with (if ?b then _ else _) = _ => destruct b; [|discriminate] end.
  match type of H2 with (if ?b then _ else _) = _ => destruct b; [|discriminate] end.
  injection H1 as Hy1 Hm1. injection H2 as Hy2 Hm2.
  pose proof (digit_val_range _ _ Ea1). pose proof (digit_val_range _ _ Eb1).
  pose proof (digit_val_range _ _ Ec1). pose proof (digit_val_range _ _ Ed1).
  pose proof (digit_val_range _ _ Ee1). pose proof (digit_val_range _ _ Ef1).
  pose proof (digit_val_range _ _ Ea2). pose proof (digit_val_range _ _ Eb2).
  pose proof (digit_val_range _ _ Ec2). pose proof (digit_val_range _ _ Ed2).
  pose proof (digit_val_range _ _ Ee2). pose proof (digit_val_range _ _ Ef2).
  assert (va2 = va1) by lia. assert (vb2 = vb1) by lia. assert (vc2 = vc1) by lia.
  assert (vd2 = vd1) by lia. assert (ve2 = ve1) by lia. assert (vf2 = vf1) by lia.
  subst.
  rewrite (digit_val_inj _ _ _ Ea1 Ea2), (digit_val_inj _ _ _ Eb1 Eb2),
    (digit_val_inj _ _ _ Ec1 Ec2), (digit_val_inj _ _ _ Ed1 Ed2),
    (digit_val_inj _ _ _ Ee1 Ee2), (digit_val_inj _ _ _ Ef1 Ef2).
  reflexivity.
Qed.

Lemma digit_val_digit (k : Z) :
  0 <= k <= 9 -> digit_val (datetime.digit k) = Some k.
Proof.
  intros Hk.
  assert (C : k = 0 \/ k = 1 \/ k = 2 \/ k = 3 \/ k = 4 \/ k = 5 \/ k = 6
              \/ k = 7 \/ k = 8 \/ k = 9) by lia.
  repeat (destruct C as [-> | C]); try subst k; reflexivity.
Qed.

(** The month key cut from an ISO date always parses, to the year and month
    of the date. *)
Lemma iso_dated_month (c : commit) (d : Z) (rest : string) :
  datetime.valid d ->
  author_date c = datetime.isoformat d ++ rest ->
  to_datetime (month_of c)
  = Some (fst (fst (datetime.ord2ymd d)), snd (fst (datetime.ord2ymd d))).
Proof.
  intros Hv E. unfold month_of. rewrite E. unfold datetime.isoformat.
  pose proof (ord2ymd_spec d Hv) as S.
  destruct (datetime.ord2ymd d) as [[y m] dd]. destruct S as (Hy & Hm & _ & _).
  unfold datetime.fmt04, datetime.fmt02, slice_to.
  cbv [String.append String.substring]. cbn [fst snd to_datetime].
  rewrite !digit_val_digit by (Z.to_euclidean_division_equations; lia).
  cbv zeta. change (Ascii.eqb "-" "-") with true. cbn [andb].
  replace (1000 * (y / 1000) + 100 * (y / 100 mod 10) + 10 * (y / 10 mod 10) + y mod 10)
    with y by (Z.to_euclidean_division_equations; lia).
  replace (10 * (m / 10) + m mod 10) with m by (Z.to_euclidean_division_equations; lia).
  destruct (Z.leb_spec 1 m); [|lia]. destruct (Z.leb_spec m 12); [|lia].
  destruct (Z.leb_spec 1 y); [|lia]. reflexivity.
Qed.

Lemma iso_dated_parses (c : commit) :
  iso_dated c -> is_Some (to_datetime (month_of c)).
Proof.
  intros (d & rest & Hv & E). rewrite (iso_dated_month c d rest Hv E). eexists; reflexivity.
Qed.

Lemma parse_months_elem (items : list (string * Z)) :
  forall df, parse_months items = Some df ->
    forall k n, (k, n) ∈ df <-> exists m, (m, n) ∈ items /\ to_datetime m = Some k.
Proof.
  induction items as [|[m0 n0] items IH]; intros df Hdf k n.
  - injection Hdf as <-. split.
    + intros H. inversion H.
    + intros (m & H & _). inversion H.
  - cbn [parse_months] in Hdf.
    destruct (to_datetime m0) as [k0|] eqn:E0; [|discriminate].
    destruct (parse_months items) as [rows|]; [|discriminate].
    injection Hdf as <-. rewrite elem_of_cons, (IH rows eq_refl). split.
    + intros [[= -> ->] | (m & Hm & Hk)].
      * exists m0. split; [left | exact E0].
      * exists m. split; [right; exact Hm | exact Hk].
    + intros (m & Hm & Hk). apply elem_of_cons in Hm. destruct Hm as [[= -> ->] | Hm].
      * left. congruence.
      * right. exists m. split; assumption.
Qed.

Lemma parse_months_total (items : list (string * Z)) :
  Forall (fun it => is_Some (to_datetime (fst it))) items ->
  exists df, parse_months items = Some df.
Proof.
  induction 1 as [|[m n] items [k Hk] _ [rows IH]]; [eexists; reflexivity|].
  cbn [parse_months fst] in *. rewrite Hk, IH. eexists; reflexivity.
Qed.

#[global] Instance month_le_total : Total month_le.
Proof. intros a b. unfold month_le. lia. Qed.

Lemma sort_values_elem (df : DataFrame) (row : month_key * Z) :
  row ∈ sort_values df <-> row ∈ df.
Proof. unfold sort_values. rewrite merge_sort_Permutation. reflexivity. Qed.

Lemma monthly_commits_never_raises (secrets : gmap string string) (username : string)
    (months : Z) (now : datetime_t) (w : world) (t : nat) :
  exists res, fst (get_github_monthly_commits secrets username months now w t) = Ok res.
Proof.
  unfold get_github_monthly_commits, try_except.
  match goal with |- context [let (_, _) := ?m w t in _] => destruct (m w t) as [[v | e] t'] end;
    eexists; reflexivity.
Qed.

Lemma monthly_commits_some_inv (secrets : gmap string string) (username : string)
    (months : Z) (now : datetime_t) (w : world) (t : nat) (df : DataFrame) :
  fst (get_github_monthly_commits secrets username months now w t) = Ok (Some df) ->
  exists hdrs prms repos mc t1 t2 df0,
    monthly_repos username hdrs prms repos ∅ w t1 = (Ok mc, t2)
    /\ mc <> ∅
    /\ parse_months (map_to_list mc) = Some df0
    /\ df = sort_values df0.
Proof.
  unfold get_github_monthly_commits, try_except.
  match goal with
  | |- context [let (_, _) := ?m w t in _] => destruct (m w t) as [[v | e] t'] eqn:Erun
  end; [|discriminate].
  cbn [fst]. intros [= ->].
  apply bind_ok_inv in Erun. destruct Erun as (resp & t1 & _ & Erun).
  apply bind_ok_inv in Erun. destruct Erun as (? & t2 & _ & Erun).
  apply bind_ok_inv in Erun. destruct Erun as (j & t3 & _ & Erun).
  apply bind_ok_inv in Erun. destruct Erun as (start & t4 & _ & Erun).
  apply bind_ok_inv in Erun. destruct Erun as (repos & t5 & _ & Erun).
  apply bind_ok_inv in Erun. destruct Erun as (mc & t6 & Hloop & Erun).
  destruct (decide (mc = ∅)) as [|Hne]; [discriminate|].
  destruct (parse_months (map_to_list mc)) as [df0|] eqn:Edf0; [|discriminate].
  injection Erun as <- _.
  eexists _, _, repos, mc, t5, t6, df0. repeat split; eauto.
Qed.

(** C6.  For every list of fetched commits, each with its authored date (an
    ISO-8601 date of any year, followed by anything): when the listing and
    the date arithmetic succeed, the frame returned by
    [get_github_monthly_commits] is in chronological order and has, for every
    month, a row with the number of counted commits whose authored date,
    truncated to its month, is that month, and no row for a month without
    commits; it is [None] only when nothing was counted. *)
Theorem monthly_histogram_counts (secrets : gmap string string) (username : string)
    (months : Z) (now : datetime_t) (w : world) (t : nat) (repos : list repo)
    (answers : list (Z * list commit)) :
  length repos = length answers ->
  0 < dt_date now - months * 30 <= datetime.MAXORDINAL ->
  (forall rq, w t rq = Response 200 (JRepos repos)) ->
  (forall i a, answers !! i = Some a ->
               forall rq, w (S t + i)%nat rq = Response (fst a) (JCommits (snd a))) ->
  Forall iso_dated (counted_commits answers) ->
  exists res,
    get_github_monthly_commits secrets username months now w t
    = (Ok res, (S t + length repos)%nat)
    /\ match res with
       | None => counted_commits answers = []
       | Some df =>
           Sorted month_le df
           /\ (forall m k n,
                  to_datetime m = Some k ->
                  ((k, n) ∈ df
                   <-> n = commits_in_month m (counted_commits answers) /\ 0 < n))
           /\ (forall k n, (k, n) ∈ df -> exists m, to_datetime m = Some k)
       end.
Proof.
  intros Hlen Hwin Hlist Hans Hparse.
  set (cs := counted_commits answers) in *.
  unfold get_github_monthly_commits, try_except.
  unfold bind at 1. unfold requests_get at 1. rewrite Hlist.
  unfold bind at 1. unfold raise_for_status at 1. cbn [fst snd].
  change ((400 <=? 200) && (200 <? 600)) with false. cbv iota. unfold ret at 1.
  unfold bind at 1. unfold resp_json at 1. cbn [fst snd]. unfold ret at 1.
  unfold bind at 1. rewrite dt_sub_days_ok by assumption. unfold lift at 1.
  unfold bind at 1. unfold as_repos at 1. unfold ret at 1.
  unfold bind at 1.
  rewrite (monthly_repos_run username _ _ w repos answers ∅ (S t) Hlen Hans).
  fold cs.
  destruct (decide (count_months cs ∅ = ∅)) as [He | Hne].
  - exists None. split; [reflexivity|].
    destruct cs as [|c cs']; [reflexivity|]. exfalso.
    pose proof (count_months_empty_lookup (c :: cs') (month_of c)
                  (commits_in_month (month_of c) (c :: cs'))) as [_ Hl].
    rewrite He, lookup_empty in Hl.
    assert (0 < commits_in_month (month_of c) (c :: cs')).
    { unfold commits_in_month. rewrite filter_cons, decide_True by reflexivity.
      cbn [length]. lia. }
    specialize (Hl (conj eq_refl H)). discriminate.
  - assert (Hkeys : Forall (fun it => is_Some (to_datetime (fst it)))
                      (map_to_list (count_months cs ∅))).
    { apply Forall_forall. intros [m n] Hin. cbn [fst].
      apply elem_of_map_to_list in Hin. apply count_months_empty_lookup in Hin.
      destruct Hin as [-> Hpos]. apply commits_in_month_pos in Hpos.
      destruct Hpos as (c & Hc & <-).
      rewrite Forall_forall in Hparse. apply iso_dated_parses, Hparse. exact Hc. }
    destruct (parse_months_total _ Hkeys) as [df0 Hdf0]. rewrite Hdf0.
    exists (Some (sort_values df0)). split; [reflexivity|].
    split; [|split].
    + unfold sort_values. apply Sorted_merge_sort. apply _.
    + intros m k n Hk. rewrite sort_values_elem, (parse_months_elem _ _ Hdf0).
      rewrite <- count_months_empty_lookup. split.
      * intros (m' & Hin & Hk'). apply elem_of_map_to_list in Hin.
        rewrite (to_datetime_inj m m' k Hk Hk'). exact Hin.
      * intros Hl. exists m. split; [apply elem_of_map_to_list; exact Hl | exact Hk].
    + intros k n Hin. rewrite sort_values_elem in Hin.
      rewrite (parse_months_elem _ _ Hdf0) in Hin. destruct Hin as (m & _ & Hk).
      exists m. exact Hk.
Qed.

(** Commits on 2025-01-05, 2025-01-20 and 2025-02-01. *)
Example monthly_histogram_example :
  get_github_monthly_commits ∅ "duckola" 5 (noon 2025 3 1) world_one_repo 0%nat
  = (Ok (Some [((2025, 1), 2); ((2025, 2), 1)]), 2%nat)
  /\ to_datetime "2025-01" = Some (2025, 1)
  /\ to_datetime "2025-02" = Some (2025, 2).
Proof. repeat split; vm_compute; reflexivity. Qed.

(** A commit dated far ahead is counted like any other. *)
Example monthly_histogram_far_year :
  get_github_monthly_commits ∅ "duckola" 5 (noon 2025 3 1)
    (fun t _ =>
       match t with
       | O => Response 200 (JRepos one_repo)
       | _ => Response 200 (JCommits [mk_commit "2025-01-05T10:00:00Z";
                                      mk_commit "2025-01-20T09:30:00Z";
                                      mk_commit "2300-01-01T00:00:00Z"])
       end) 0%nat
  = (Ok (Some [((2025, 1), 2); ((2300, 1), 1)]), 2%nat).
Proof. vm_compute. reflexivity. Qed.

Lemma monthly_histogram_counts_witness :
  exists res,
    get_github_monthly_commits ∅ "duckola" 5 (noon 2025 3 1) world_one_repo 0%nat
    = (Ok res, (1 + length one_repo)%nat)
    /\ match res with
       | None => counted_commits [(200, three_commits)] = []
       | Some df =>
           Sorted month_le df
           /\ (forall m k n,
                  to_datetime m = Some k ->
                  ((k, n) ∈ df
                   <-> n = commits_in_month m (counted_commits [(200, three_commits)])
                       /\ 0 < n))
           /\ (forall k n, (k, n) ∈ df -> exists m, to_datetime m = Some k)
       end.
Proof.
  apply (monthly_histogram_counts ∅ "duckola" 5 (noon 2025 3 1) world_one_repo 0
           one_repo [(200, three_commits)]).
  - reflexivity.
  - vm_compute. intuition discriminate.
  - intros rq. reflexivity.
  - intros [|i] a Ha; [|destruct i; discriminate Ha].
    injection Ha as <-. intros rq. reflexivity.
  - change (counted_commits [(200, three_commits)]) with three_commits.
    unfold three_commits.
    apply List.Forall_cons;
      [|apply List.Forall_cons; [|apply List.Forall_cons; [|apply List.Forall_nil]]].
    + exists (datetime.ymd2ord 2025 1 5), "T10:00:00Z".
      split; [vm_compute; intuition discriminate | reflexivity].
    + exists (datetime.ymd2ord 2025 1 20), "T09:30:00Z".
      split; [vm_compute; intuition discriminate | reflexivity].
    + exists (datetime.ymd2ord 2025 2 1), "T23:59:59Z".
      split; [vm_compute; intuition discriminate | reflexivity].
Defined.

(** C7.  When no commit at all is found, [get_github_monthly_commits]
    returns [None]; and a frame, when one is returned, is not empty and has no
    zero count, so "no data" is never confused with a zero-count series. *)
Theorem monthly_none_without_commits (secrets : gmap string string) (username : string)
    (months : Z) (now : datetime_t) (w : world) (t : nat) :
  (no_commits w ->
   fst (get_github_monthly_commits secrets username months now w t) = Ok None)
  /\ (forall df,
        fst (get_github_monthly_commits secrets username months now w t) = Ok (Some df) ->
        df <> [] /\ forall k n, (k, n) ∈ df -> 1 <= n).
Proof.
  split.
  - intros Hno.
    destruct (monthly_commits_never_raises secrets username months now w t) as [[df|] Hres];
      [|exact Hres].
    exfalso. apply monthly_commits_some_inv in Hres.
    destruct Hres as (hdrs & prms & repos & mc & t1 & t2 & df0 & Hloop & Hne & _).
    apply Hne.
    eapply (monthly_repos_inv (fun m => m = ∅)); [| |exact Hloop]; [|reflexivity].
    intros cs mc0 -> [-> | (t0 & rq & c & l & -> & Hw)]; [reflexivity|].
    exfalso. exact (Hno _ _ _ _ Hw).
  - intros df Hres. apply monthly_commits_some_inv in Hres.
    destruct Hres as (hdrs & prms & repos & mc & t1 & t2 & df0 & Hloop & Hne & Edf0 & ->).
    assert (Hpos : counts_positive mc).
    { eapply (monthly_repos_inv counts_positive); [| |exact Hloop].
      - intros cs mc0 H0 _. apply count_months_positive. exact H0.
      - intros m n. rewrite lookup_empty. discriminate. }
    split.
    + intros Hnil.
      destruct (map_to_list mc) as [|[m n] items] eqn:Eitems.
      * apply map_to_list_empty_iff in Eitems. contradiction.
      * cbn [parse_months] in Edf0.
        destruct (to_datetime m) as [k|]; [|discriminate].
        destruct (parse_months items) as [rows|]; [|discriminate].
        injection Edf0 as <-.
        assert (Hrow : (k, n) ∈ sort_values ((k, n) :: rows))
          by (apply sort_values_elem; left).
        rewrite Hnil in Hrow. inversion Hrow.
    + intros k n Hin. rewrite sort_values_elem in Hin.
      rewrite (parse_months_elem _ _ Edf0) in Hin.
      destruct Hin as (m & Hin & _). apply elem_of_map_to_list in Hin.
      exact (Hpos m n Hin).
Qed.

Lemma monthly_none_without_commits_witness :
  no_commits world_quiet
  /\ fst (get_github_monthly_commits ∅ "duckola" 5 (noon 2025 3 1) world_quiet 0%nat) = Ok None.
Proof.
  assert (Hq : no_commits world_quiet)
    by (intros [|t] rq c l H; discriminate H).
  split; [exact Hq|].
  exact (proj1 (monthly_none_without_commits ∅ "duckola" 5 (noon 2025 3 1) world_quiet 0) Hq).
Defined.

(** C4 (the code departs from it).  Three repositories, the commits of the
    second unreachable: [get_daily_commit_dates] still returns the days of
    the other two, but [get_github_monthly_commits] returns [None], losing
    the commit it had already counted and never asking for the third. *)
Theorem monthly_aborts_on_unreachable_repo :
  get_github_monthly_commits ∅ "duckola" 5 (noon 2025 3 1) world_middle_unreachable 0%nat
  = (Ok None, 3%nat)
  /\ get_daily_commit_dates ∅ "duckola" 5 (noon 2025 3 1) world_middle_unreachable 0%nat
     = (Ok ["2025-01-05"; "2025-02-01"], 4%nat).
Proof. split; vm_compute; reflexivity. Qed.

(** * Further properties *)

(** ** More on [compute_streak] *)

Lemma streak_loop_sound (dates : list string) :
  forall (fuel : nat) (streak day k : Z),
    datetime.valid day ->
    streak_loop fuel dates streak day = Some (Ok k) ->
    streak <= k /\ k - streak < day
    /\ (forall i, 0 <= i < k - streak -> datetime.isoformat (day - i) ∈ dates)
    /\ datetime.isoformat (day - (k - streak)) ∉ dates.
Proof.
  induction fuel as [|fuel IH]; intros streak day k Hv Hrun; [discriminate|].
  cbn [streak_loop] in Hrun.
  unfold datetime.valid, datetime.MINORDINAL in Hv.
  destruct (decide (datetime.isoformat day ∈ dates)) as [Hin | Hout].
  - destruct (Z.eq_dec day 1) as [-> | Hne].
    + rewrite sub_days_overflow in Hrun by lia. discriminate.
    + rewrite sub_days_ok in Hrun by lia.
      apply IH in Hrun; [|unfold datetime.valid, datetime.MINORDINAL; lia].
      destruct Hrun as (H1 & H2 & H3 & H4).
      split; [lia|]. split; [lia|]. split.
      * intros i Hi. destruct (Z.eq_dec i 0) as [-> | Hi0].
        -- rewrite Z.sub_0_r. exact Hin.
        -- replace (day - i) with (day - 1 - (i - 1)) by lia. apply H3. lia.
      * replace (day - (k - streak)) with (day - 1 - (k - (streak + 1))) by lia. exact H4.
  - injection Hrun as <-. rewrite Z.sub_diag, Z.sub_0_r.
    split; [lia|]. split; [lia|]. split; [intros i Hi; lia | exact Hout].
Qed.

(** X1.  A returned streak [k] is exact: today and the [k - 1] days before it
    are all in the collection, and the day before those is a date that is
    not. *)
Theorem compute_streak_sound (dates : list string) (today k : Z) (fuel : nat) :
  datetime.valid today ->
  compute_streak fuel dates today = Some (Ok k) ->
  0 <= k < today
  /\ (forall i, 0 <= i < k -> datetime.isoformat (today - i) ∈ dates)
  /\ datetime.isoformat (today - k) ∉ dates.
Proof.
  intros Hv Hrun. unfold compute_streak in Hrun.
  apply streak_loop_sound in Hrun; [|exact Hv].
  rewrite !Z.sub_0_r in Hrun. destruct Hrun as (H1 & H2 & H3 & H4).
  repeat split; try lia; assumption.
Qed.

Lemma compute_streak_sound_witness :
  0 <= 5 < nov_4
  /\ (forall i, 0 <= i < 5 -> datetime.isoformat (nov_4 - i) ∈ five_days)
  /\ datetime.isoformat (nov_4 - 5) ∉ five_days.
Proof.
  apply (compute_streak_sound five_days nov_4 5 6).
  - unfold datetime.valid; cbv; intuition discriminate.
  - vm_compute. reflexivity.
Defined.

Lemma streak_loop_ext (dates dates' : list string) :
  (forall d, d ∈ dates <-> d ∈ dates') ->
  forall (fuel : nat) (streak day : Z),
    streak_loop fuel dates streak day = streak_loop fuel dates' streak day.
Proof.
  intros Hext. induction fuel as [|fuel IH]; intros streak day; [reflexivity|].
  cbn [streak_loop].
  destruct (decide (datetime.isoformat day ∈ dates)) as [Hin | Hout].
  - rewrite decide_True by (apply Hext; exact Hin).
    destruct (datetime.sub_days day 1); [apply IH | reflexivity].
  - rewrite decide_False by (rewrite <- Hext; exact Hout). reflexivity.
Qed.

(** X2.  The streak depends only on which strings are in the collection, not
    on their order or on repetitions. *)
Theorem compute_streak_same_elements (dates dates' : list string) (today : Z)
    (fuel : nat) :
  (forall d, d ∈ dates <-> d ∈ dates') ->
  compute_streak fuel dates today = compute_streak fuel dates' today.
Proof. intros Hext. unfold compute_streak. apply streak_loop_ext. exact Hext. Qed.

Lemma compute_streak_same_elements_witness :
  compute_streak 6 five_days nov_4
  = compute_streak 6 ("2025-11-04" :: "2025-11-04" :: reverse five_days) nov_4.
Proof.
  apply (compute_streak_same_elements five_days
           ("2025-11-04" :: "2025-11-04" :: reverse five_days) nov_4 6).
  intros d. rewrite !elem_of_cons, elem_of_reverse.
  split; [intros H; right; right; exact H|].
  intros [-> | [-> | H]]; [| |exact H];
    apply (bool_decide_unpack _); vm_compute; exact I.
Defined.

Lemma streak_loop_all_present (dates : list string) :
  forall (fuel : nat) (streak day : Z),
    0 < day <= datetime.MAXORDINAL -> (Z.to_nat day <= fuel)%nat ->
    (forall d, 1 <= d <= day -> datetime.isoformat d ∈ dates) ->
    streak_loop fuel dates streak day = Some (Raise OverflowError).
Proof.
  induction fuel as [|fuel IH]; intros streak day Hd Hf Hall; [lia|].
  cbn [streak_loop]. rewrite decide_True by (apply Hall; lia).
  destruct (Z.eq_dec day 1) as [-> | Hne].
  - rewrite sub_days_overflow by lia. reflexivity.
  - rewrite sub_days_ok by lia. apply IH; [lia | lia |].
    intros d Hd'. apply Hall. lia.
Qed.

(** X3.  When every day from 0001-01-01 up to today is in the collection, the
    walk runs off the first representable date and [compute_streak] raises
    [OverflowError]. *)
Theorem compute_streak_overflow (dates : list string) (today : Z) (fuel : nat) :
  datetime.valid today ->
  (Z.to_nat today <= fuel)%nat ->
  (forall d, 1 <= d <= today -> datetime.isoformat d ∈ dates) ->
  compute_streak fuel dates today = Some (Raise OverflowError).
Proof.
  intros Hv Hf Hall. unfold compute_streak.
  unfold datetime.valid, datetime.MINORDINAL in Hv.
  apply streak_loop_all_present; [lia | exact Hf | exact Hall].
Qed.

Lemma compute_streak_overflow_witness :
  compute_streak 3 ["0001-01-01"; "0001-01-02"; "0001-01-03"] 3
  = Some (Raise OverflowError).
Proof.
  apply (compute_streak_overflow ["0001-01-01"; "0001-01-02"; "0001-01-03"] 3 3).
  - unfold datetime.valid; cbv; intuition discriminate.
  - cbn. lia.
  - intros d Hd. assert (Hc : d = 1 \/ d = 2 \/ d = 3) by lia.
    destruct Hc as [-> | [-> | ->]]; apply (bool_decide_unpack _); vm_compute; exact I.
Defined.

(** ** The two figures of the "Learning Streak" metric together *)

(** X4.  On the home page the streak and the "+N this week" figure come from
    the same list: whenever the streak is [k], at least [min k 8] entries are
    counted for the week (the days from today back to a week ago). *)
Theorem weekly_increase_covers_streak (dates : list string) (today k : Z)
    (fuel : nat) :
  datetime.valid today -> 7 < today ->
  compute_streak fuel dates today = Some (Ok k) ->
  exists n, get_weekly_streak_increase dates today = Ok n /\ Z.min k 8 <= n.
Proof.
  intros Hv H7 Hrun. unfold compute_streak in Hrun.
  apply streak_loop_sound in Hrun; [|exact Hv].
  rewrite !Z.sub_0_r in Hrun. destruct Hrun as (Hk0 & Hk & Hin & _).
  unfold get_weekly_streak_increase.
  unfold datetime.valid, datetime.MINORDINAL in Hv.
  rewrite sub_days_ok by lia. eexists; split; [reflexivity|].
  set (recent := filter (fun d => str_ge d (datetime.isoformat (today - 7)) = true) dates).
  set (m := Z.min k 8).
  set (days := (fun i : nat => today - Z.of_nat i) <$> seq 0 (Z.to_nat m)).
  assert (Hdays : forall d, d ∈ days -> today - m < d <= today).
  { intros d Hd. unfold days in Hd. apply list_elem_of_fmap in Hd.
    destruct Hd as (i & -> & Hi). apply elem_of_seq in Hi. lia. }
  assert (Hnd : NoDup (datetime.isoformat <$> days)).
  { apply NoDup_fmap_2_strong.
    - intros x y Hx Hy E. apply Hdays in Hx, Hy.
      apply isoformat_inj; unfold datetime.valid, datetime.MINORDINAL; try lia. exact E.
    - unfold days. apply NoDup_fmap_2_strong; [|apply NoDup_seq].
      intros x y _ _ E. lia. }
  assert (Hsub : datetime.isoformat <$> days ⊆+ recent).
  { apply NoDup_submseteq; [exact Hnd|].
    intros x Hx. apply list_elem_of_fmap in Hx. destruct Hx as (d & -> & Hd).
    pose proof (Hdays d Hd) as Hr. unfold recent. apply list_elem_of_filter. split.
    - apply str_ge_isoformat; unfold datetime.valid, datetime.MINORDINAL; lia.
    - replace d with (today - (today - d)) by lia. apply Hin. lia. }
  apply submseteq_length in Hsub.
  rewrite length_fmap in Hsub. unfold days in Hsub.
  rewrite length_fmap, length_seq in Hsub. lia.
Qed.

Lemma weekly_increase_covers_streak_witness :
  exists n, get_weekly_streak_increase five_days nov_4 = Ok n /\ Z.min 5 8 <= n.
Proof.
  apply (weekly_increase_covers_streak five_days nov_4 5 6).
  - unfold datetime.valid; cbv; intuition discriminate.
  - unfold nov_4. lia.
  - vm_compute. reflexivity.
Defined.

(** ** More on [get_daily_commit_dates] *)

Lemma add_dates_elem (cs : list commit) :
  forall (dates : gset string) (x : string),
    x ∈ add_dates cs dates <-> x ∈ dates \/ exists c, c ∈ cs /\ day_of c = x.
Proof.
  induction cs as [|c cs IH]; intros dates x; cbn [add_dates].
  - split; [intros H; left; exact H|]. intros [H | (c & Hc & _)]; [exact H|].
    inversion Hc.
  - rewrite IH, elem_of_union, elem_of_singleton. fold (day_of c). split.
    + intros [[-> | H] | (c' & Hc' & E)].
      * right. exists c. split; [left | reflexivity].
      * left. exact H.
      * right. exists c'. split; [right; exact Hc' | exact E].
    + intros [H | (c' & Hc' & E)].
      * left. right. exact H.
      * apply elem_of_cons in Hc'. destruct Hc' as [-> | Hc'].
        -- left. left. symmetry. exact E.
        -- right. exists c'. split; assumption.
Qed.

Lemma github_request_failure (secrets : gmap string string) (url : string)
    (prms : list (string * string)) (w : world) (t : nat) (r : reply) (l : list commit) :
  (forall rq, w t rq = r) -> fetch_outcome r l ->
  (exists s, r = Response s (JCommits l) /\
             github_request secrets url prms w t = (Ok (JCommits l), S t))
  \/ (l = [] /\ exists e, github_request secrets url prms w t = (Raise e, S t)).
Proof.
  intros Hw Ho.
  destruct Ho as [s l Hs | | s b Hs | s]; [left; exists s; split; [reflexivity|] | right; split; [reflexivity|] ..];
    unfold github_request, bind, requests_get; rewrite Hw;
    unfold raise_for_status, resp_json, raise, ret; cbn [fst snd].
  - destruct (Z.leb_spec 400 s); destruct (Z.ltb_spec s 600); cbn; try reflexivity; lia.
  - eexists; reflexivity.
  - destruct (Z.leb_spec 400 s); destruct (Z.ltb_spec s 600); try lia.
    eexists; reflexivity.
  - destruct ((400 <=? s) && (s <? 600)); eexists; reflexivity.
Qed.

Lemma daily_repos_outcomes (secrets : gmap string string) (user : string)
    (prms : list (string * string)) (w : world) (repos : list repo) :
  forall (answers : list (reply * list commit)) (dates : gset string) (t : nat),
    length repos = length answers ->
    (forall i a, answers !! i = Some a ->
                 fetch_outcome (fst a) (snd a) /\ forall rq, w (t + i)%nat rq = fst a) ->
    daily_repos secrets user prms repos dates w t
    = (Ok (add_dates (concat (snd <$> answers)) dates), (t + length repos)%nat).
Proof.
  induction repos as [|r repos IH]; intros answers dates t Hlen Hw.
  - destruct answers; [|discriminate]. cbn. unfold ret. f_equal. lia.
  - destruct answers as [|[rep l] answers]; [discriminate|].
    cbn [daily_repos].
    destruct (Hw 0%nat (rep, l) eq_refl) as [Ho H0]. cbn [fst snd] in Ho, H0.
    rewrite Nat.add_0_r in H0.
    assert (Hrest : forall dates',
               daily_repos secrets user prms repos dates' w (S t)
               = (Ok (add_dates (concat (snd <$> answers)) dates'),
                  (t + length (r :: repos))%nat)).
    { intros dates'. rewrite (IH answers dates' (S t)).
      - f_equal. cbn [length]. lia.
      - cbn in Hlen. lia.
      - intros i a' Ha. specialize (Hw (S i) a' Ha).
        replace (S t + i)%nat with (t + S i)%nat by lia. exact Hw. }
    rewrite fmap_cons. cbn [concat snd]. rewrite add_dates_app.
    unfold bind at 1. unfold try_except. unfold bind at 1.
    match goal with
    | |- context [github_request secrets ?u prms w t] =>
        destruct (github_request_failure secrets u prms w t rep l H0 Ho)
          as [(s & -> & ->) | (-> & e & ->)]
    end.
    + cbn. apply Hrest.
    + cbn. apply Hrest.
Qed.

#[local] Instance str_le_total : Total str_le.
Proof.
  intros a b. unfold str_le, String.leb.
  rewrite (String.compare_antisym b a).
  destruct (String.compare a b); cbn; (left; reflexivity) || (right; reflexivity).
Qed.

(** X5.  [get_daily_commit_dates] skips every repository whose commit fetch
    fails (no answer, a 4xx/5xx, an undecodable body) and goes on: it returns
    the days of the commits of all other repositories, each day once, in
    ascending order, after one call for the listing and one per repository. *)
Theorem daily_dates_of_kept_commits (secrets : gmap string string) (user : string)
    (months : Z) (now : datetime_t) (w : world) (t : nat) (s0 : Z)
    (repos : list repo) (answers : list (reply * list commit)) :
  ~ 400 <= s0 < 600 ->
  (forall rq, w t rq = Response s0 (JRepos repos)) ->
  0 < dt_date now - months * 30 <= datetime.MAXORDINAL ->
  length repos = length answers ->
  (forall i a, answers !! i = Some a ->
               fetch_outcome (fst a) (snd a)
               /\ forall rq, w (S t + i)%nat rq = fst a) ->
  exists dates,
    get_daily_commit_dates secrets user months now w t
    = (Ok dates, (S t + length repos)%nat)
    /\ Sorted str_le dates /\ NoDup dates
    /\ forall x, x ∈ dates
                 <-> exists c, c ∈ concat (snd <$> answers) /\ day_of c = x.
Proof.
  intros Hs0 Hlist Hwin Hlen Hans.
  unfold get_daily_commit_dates.
  unfold bind at 1. unfold github_request.
  unfold bind at 1. unfold requests_get at 1. rewrite Hlist.
  unfold bind at 1. unfold raise_for_status. cbn [fst snd].
  assert (Es : (400 <=? s0) && (s0 <? 600) = false).
  { destruct (Z.leb_spec 400 s0); destruct (Z.ltb_spec s0 600); cbn; try reflexivity; lia. }
  rewrite Es. unfold ret at 1. unfold resp_json at 1. cbn [snd]. unfold ret at 1.
  unfold bind at 1. rewrite dt_sub_days_ok by exact Hwin. unfold lift at 1.
  unfold bind at 1. unfold as_repos at 1. unfold ret at 1.
  unfold bind at 1.
  rewrite (daily_repos_outcomes secrets user _ w repos answers ∅ (S t) Hlen Hans).
  unfold ret. eexists. split; [reflexivity|].
  unfold sorted. split; [|split].
  - apply Sorted_merge_sort. apply _.
  - rewrite merge_sort_Permutation. apply NoDup_elements.
  - intros x. rewrite merge_sort_Permutation, elem_of_elements, add_dates_elem.
    split; [intros [H | H]; [set_solver | exact H] | intros H; right; exact H].
Qed.

(** ** One call per repository, no retries *)

Lemma requests_get_tick (rq : request) (w : world) (t : nat) :
  snd (requests_get rq w t) = S t.
Proof. unfold requests_get. destruct (w t rq); reflexivity. Qed.




Lemma monthly_repos_calls (username : string) (hdrs prms : list (string * string))
    (w : world) (repos : list repo) :
  forall (mc : gmap string Z) (t : nat) out,
    monthly_repos username hdrs prms repos mc w t = out ->
    (t <= snd out <= t + length repos)%nat.
Proof.
  induction repos as [|r repos IH]; intros mc t out Hrun.
  - cbn in Hrun. subst out. cbn. lia.
  - cbn [monthly_repos] in Hrun. cbn [length]. unfold bind at 1 in Hrun.
    unfold requests_get at 1 in Hrun.
    destruct (w t _) as [|s b]; [subst out; cbn; lia|].
    cbn [fst snd] in Hrun.
    destruct (s =? 200).
    + unfold bind at 1 in Hrun. unfold resp_json in Hrun. cbn [snd] in Hrun.
      destruct b as [l | l |]; unfold ret, raise in Hrun; try (subst out; cbn; lia).
      * unfold bind at 1 in Hrun. unfold as_commits in Hrun.
        destruct l; unfold ret, raise in Hrun.
        -- apply IH in Hrun. lia.
        -- subst out. cbn. lia.
      * unfold bind at 1 in Hrun. unfold as_commits, ret in Hrun.
        apply IH in Hrun. lia.
    + apply IH in Hrun. lia.
Qed.

(** X7.  [get_github_monthly_commits] always makes at least the listing
    request and, when the listing names [repos], at most one more request per
    repository: nothing is retried. *)
Theorem monthly_commits_call_count (secrets : gmap string string) (username : string)
    (months : Z) (now : datetime_t) (w : world) (t : nat) (s : Z) (repos : list repo) :
  (forall rq, w t rq = Response s (JRepos repos)) ->
  (S t <= snd (get_github_monthly_commits secrets username months now w t)
   <= S t + length repos)%nat.
Proof.
  intros Hlist.
  destruct (get_github_monthly_commits secrets username months now w t) as [res t'] eqn:Hrun.
  cbn [snd]. unfold get_github_monthly_commits, try_except in Hrun.
  unfold bind at 1 in Hrun. unfold requests_get at 1 in Hrun. rewrite Hlist in Hrun.
  unfold bind at 1 in Hrun. unfold raise_for_status in Hrun. cbn [fst snd] in Hrun.
  destruct ((400 <=? s) && (s <? 600)); unfold raise, ret in Hrun;
    [injection Hrun as _ <-; lia|].
  unfold bind at 1 in Hrun. unfold resp_json in Hrun. cbn [snd] in Hrun.
  unfold ret in Hrun. unfold bind at 1 in Hrun. unfold lift in Hrun.
  destruct (dt_sub_days now (months * 30)) as [start | e];
    [|injection Hrun as _ <-; lia].
  unfold bind at 1 in Hrun. unfold as_repos, ret in Hrun.
  unfold bind at 1 in Hrun.
  match type of Hrun with
  | context [monthly_repos username ?h ?p repos ∅ w (S t)] =>
      pose proof (monthly_repos_calls username h p w repos ∅ (S t) _ eq_refl) as Hc;
      destruct (monthly_repos username h p repos ∅ w (S t)) as [[mc | e] t1]
  end; cbn [snd] in Hc; [|injection Hrun as _ <-; lia].
  destruct (decide (mc = ∅)); [injection Hrun as _ <-; lia|].
  destruct (parse_months (map_to_list mc)); unfold raise in Hrun;
    injection Hrun as _ <-; lia.
Qed.

(** ** The histogram neither loses nor invents commits *)

Lemma sum_Permutation (l1 l2 : list Z) :
  l1 ≡ₚ l2 -> foldr Z.add 0 l1 = foldr Z.add 0 l2.
Proof. induction 1; cbn; lia. Qed.

Lemma counts_total_insert (mc : gmap string Z) (k : string) (v : Z) :
  foldr Z.add 0 (snd <$> map_to_list (<[k := v]> mc))
  = foldr Z.add 0 (snd <$> map_to_list mc) - default 0 (mc !! k) + v.
Proof.
  assert (Hnone : forall m : gmap string Z, m !! k = None -> forall x,
             foldr Z.add 0 (snd <$> map_to_list (<[k := x]> m))
             = foldr Z.add 0 (snd <$> map_to_list m) + x).
  { intros m Hm x.
    rewrite (sum_Permutation _ (snd <$> ((k, x) :: map_to_list m))).
    - cbn. lia.
    - apply fmap_Permutation. apply map_to_list_insert. exact Hm. }
  destruct (mc !! k) as [x|] eqn:E; cbn [default].
  - rewrite <- (insert_delete_eq mc k v).
    rewrite (Hnone (delete k mc)) by apply lookup_delete_eq.
    pose proof (Hnone (delete k mc) (lookup_delete_eq mc k) x) as Hx.
    rewrite (insert_delete_id mc k x E) in Hx. unfold id. lia.
  - rewrite Hnone by exact E. lia.
Qed.

Lemma count_months_total (cs : list commit) :
  forall mc : gmap string Z,
    foldr Z.add 0 (snd <$> map_to_list (count_months cs mc))
    = foldr Z.add 0 (snd <$> map_to_list mc) + Z.of_nat (length cs).
Proof.
  induction cs as [|c cs IH]; intros mc; cbn [count_months length]; [lia|].
  rewrite IH, counts_total_insert. lia.
Qed.

Lemma parse_months_columns (items : list (string * Z)) :
  forall df, parse_months items = Some df ->
    snd <$> df = snd <$> items
    /\ Forall2 (fun row it => to_datetime (fst it) = Some (fst row)) df items.
Proof.
  induction items as [|[m n] items IH]; intros df Hdf.
  - injection Hdf as <-. split; [reflexivity | constructor].
  - cbn [parse_months] in Hdf.
    destruct (to_datetime m) as [k|] eqn:Ek; [|discriminate].
    destruct (parse_months items) as [rows|]; [|discriminate].
    injection Hdf as <-. destruct (IH rows eq_refl) as [H1 H2].
    split; [cbn; f_equal; exact H1 | constructor; [exact Ek | exact H2]].
Qed.

Lemma parse_months_keys_NoDup (items : list (string * Z)) :
  forall df, parse_months items = Some df ->
    NoDup (fst <$> items) -> NoDup (fst <$> df).
Proof.
  induction items as [|[m n] items IH]; intros df Hdf Hnd.
  - injection Hdf as <-. constructor.
  - pose proof Hdf as Hdf'. cbn [parse_months] in Hdf.
    destruct (to_datetime m) as [k|] eqn:Ek; [|discriminate].
    destruct (parse_months items) as [rows|] eqn:Er; [|discriminate].
    injection Hdf as <-. cbn in Hnd. apply NoDup_cons in Hnd. destruct Hnd as [Hm Hnd].
    cbn. apply NoDup_cons. split; [|apply IH; [reflexivity | exact Hnd]].
    intros Hin. apply Hm.
    apply list_elem_of_fmap in Hin. destruct Hin as ([k' n'] & Hk & Hin). cbn in Hk. subst k'.
    apply (parse_months_elem _ _ Er) in Hin. destruct Hin as (m' & Hin & Hk').
    rewrite (to_datetime_inj m m' k Ek Hk').
    apply list_elem_of_fmap. exists (m', n'). split; [reflexivity | exact Hin].
Qed.

(** X8.  Under the conditions of a successful pass, a returned frame has one
    row per month and its counts add up to the number of commits received
    with status 200: no commit is dropped or counted twice. *)
Theorem monthly_histogram_conserves (secrets : gmap string string) (username : string)
    (months : Z) (now : datetime_t) (w : world) (t : nat) (repos : list repo)
    (answers : list (Z * list commit)) (df : DataFrame) :
  length repos = length answers ->
  0 < dt_date now - months * 30 <= datetime.MAXORDINAL ->
  (forall rq, w t rq = Response 200 (JRepos repos)) ->
  (forall i a, answers !! i = Some a ->
               forall rq, w (S t + i)%nat rq = Response (fst a) (JCommits (snd a))) ->
  fst (get_github_monthly_commits secrets username months now w t) = Ok (Some df) ->
  NoDup (fst <$> df)
  /\ total_commits df = Z.of_nat (length (counted_commits answers)).
Proof.
  intros Hlen Hwin Hlist Hans.
  unfold get_github_monthly_commits, try_except.
  unfold bind at 1. unfold requests_get at 1. rewrite Hlist.
  unfold bind at 1. unfold raise_for_status at 1. cbn [fst snd].
  change ((400 <=? 200) && (200 <? 600)) with false. cbv iota. unfold ret at 1.
  unfold bind at 1. unfold resp_json at 1. cbn [fst snd]. unfold ret at 1.
  unfold bind at 1. rewrite dt_sub_days_ok by assumption. unfold lift at 1.
  unfold bind at 1. unfold as_repos at 1. unfold ret at 1.
  unfold bind at 1.
  rewrite (monthly_repos_run username _ _ w repos answers ∅ (S t) Hlen Hans).
  set (mc := count_months (counted_commits answers) ∅).
  destruct (decide (mc = ∅)); [discriminate|].
  destruct (parse_months (map_to_list mc)) as [df0|] eqn:Edf0; [|discriminate].
  cbn. intros [= <-].
  assert (Hperm : sort_values df0 ≡ₚ df0) by (unfold sort_values; apply merge_sort_Permutation).
  split.
  - rewrite Hperm. apply (parse_months_keys_NoDup _ _ Edf0).
    apply NoDup_fst_map_to_list.
  - unfold total_commits. rewrite (sum_Permutation _ (snd <$> df0))
      by (apply fmap_Permutation; exact Hperm).
    destruct (parse_months_columns _ _ Edf0) as [-> _].
    unfold mc. rewrite count_months_total, map_to_list_empty. cbn. lia.
Qed.

Lemma monthly_histogram_conserves_witness :
  NoDup (fst <$> [((2025, 1), 2); ((2025, 2), 1)])
  /\ total_commits [((2025, 1), 2); ((2025, 2), 1)]
     = Z.of_nat (length (counted_commits [(200, three_commits)])).
Proof.
  apply (monthly_histogram_conserves ∅ "duckola" 5 (noon 2025 3 1) world_one_repo 0
           one_repo [(200, three_commits)]).
  - reflexivity.
  - vm_compute. intuition discriminate.
  - intros rq. reflexivity.
  - intros [|i] a Ha; [|destruct i; discriminate Ha].
    injection Ha as <-. intros rq. reflexivity.
  - vm_compute. reflexivity.
Defined.

(** ** What the cache remembers *)

(** X9.  [get_github_monthly_commits] never raises, so whatever a call that
    found no live entry returned, a frame or [None] after a failed fetch, is
    what every call with the same arguments returns for the next 3600
    seconds, without a request, even if the upstream has recovered. *)
Theorem monthly_result_remembered (secrets : gmap string string) (username : string)
    (months : Z) (now1 now2 : datetime_t) (clock1 clock2 : Z)
    (store : gmap (string * Z) (Z * option DataFrame)) (w1 w2 : world) (t t2 : nat) :
  match store !! (username, months) with
  | Some (stored, _) => stored + 3600 <= clock1
  | None => True
  end ->
  clock2 < clock1 + 3600 ->
  exists res t1 store1,
    get_github_monthly_commits_cached secrets username months now1 clock1 store w1 t
    = (Ok res, t1, store1)
    /\ fst (get_github_monthly_commits secrets username months now1 w1 t) = Ok res
    /\ get_github_monthly_commits_cached secrets username months now2 clock2 store1 w2 t2
       = (Ok res, t2, store1).
Proof.
  intros Hfresh Hc.
  destruct (monthly_commits_never_raises secrets username months now1 w1 t) as [res Hres].
  destruct (get_github_monthly_commits secrets username months now1 w1 t) as [r t1] eqn:Hrun.
  cbn [fst] in Hres. subst r.
  assert (Hfirst :
    get_github_monthly_commits_cached secrets username months now1 clock1 store w1 t
    = (Ok res, t1, <[(username, months) := (clock1, res)]> store)).
  { unfold get_github_monthly_commits_cached, cache_data. cbn [fst snd]. rewrite Hrun.
    destruct (store !! (username, months)) as [[stored v0]|]; [|reflexivity].
    destruct (Z.ltb_spec clock1 (stored + 3600)); [lia | reflexivity]. }
  exists res, t1, (<[(username, months) := (clock1, res)]> store).
  split; [exact Hfirst|]. split; [reflexivity|].
  unfold get_github_monthly_commits_cached in *.
  eapply cache_data_second_call; eauto.
Qed.

Lemma monthly_result_remembered_witness :
  exists res t1 store1,
    get_github_monthly_commits_cached ∅ "duckola" 5 (noon 2025 3 1) 0 ∅ world_forbidden 0%nat
    = (Ok res, t1, store1)
    /\ fst (get_github_monthly_commits ∅ "duckola" 5 (noon 2025 3 1) world_forbidden 0%nat) = Ok res
    /\ get_github_monthly_commits_cached ∅ "duckola" 5 (noon 2025 3 1) 1800 store1
         world_one_repo 1%nat
       = (Ok res, 1%nat, store1).
Proof.
  apply (monthly_result_remembered ∅ "duckola" 5 (noon 2025 3 1) (noon 2025 3 1) 0 1800
           ∅ world_forbidden world_one_repo 0 1).
  - exact I.
  - lia.
Defined.

(** X10.  Whenever the repository listing fails (no answer, or a 4xx/5xx),
    [get_github_monthly_commits] gives up after that single request and
    returns [None]. *)
Theorem monthly_none_on_listing_failure (secrets : gmap string string)
    (username : string) (months : Z) (now : datetime_t) (w : world) (t : nat) :
  (forall rq, w t rq = Unreachable
              \/ exists s b, w t rq = Response s b /\ 400 <= s < 600) ->
  get_github_monthly_commits secrets username months now w t = (Ok None, S t).
Proof.
  intros Hw. unfold get_github_monthly_commits, try_except.
  unfold bind at 1. unfold requests_get at 1.
  match goal with |- context [w t ?rq] => destruct (Hw rq) as [E | (s & b & E & Hs)] end;
    rewrite E.
  - reflexivity.
  - unfold bind at 1. unfold raise_for_status at 1. cbn [fst].
    destruct (Z.leb_spec 400 s); destruct (Z.ltb_spec s 600); try lia.
    reflexivity.
Qed.

Lemma monthly_none_on_listing_failure_witness :
  get_github_monthly_commits ∅ "duckola" 5 (noon 2025 3 1) world_forbidden 0%nat
  = (Ok None, 1%nat).
Proof.
  apply (monthly_none_on_listing_failure ∅ "duckola" 5 (noon 2025 3 1) world_forbidden 0).
  intros rq. right. exists 403, JInvalid. split; [reflexivity | lia].
Defined.

(** X11.  A call of the cached [get_daily_commit_dates] that raises leaves
    the store as it was, and it raised because the function itself did on
    this very call: a failure is never served from, or written to, the
    cache, so the next render asks the upstream again. *)
Theorem daily_failure_not_cached (secrets : gmap string string) (user : string)
    (months : Z) (now : datetime_t) (clock : Z)
    (store store' : gmap (string * Z) (Z * list string)) (w : world) (t t' : nat)
    (e : exn) :
  get_daily_commit_dates_cached secrets user months now clock store w t
  = (Raise e, t', store') ->
  store' = store
  /\ get_daily_commit_dates secrets user months now w t = (Raise e, t').
Proof.
  unfold get_daily_commit_dates_cached, cache_data. cbn [fst snd].
  destruct (get_daily_commit_dates secrets user months now w t) as [[v | e0] t0] eqn:Hrun.
  - destruct (store !! (user, months)) as [[stored v0]|]; [|discriminate].
    destruct (clock <? stored + 3600); discriminate.
  - destruct (store !! (user, months)) as [[stored v0]|].
    + destruct (clock <? stored + 3600); [discriminate|].
      intros [= -> -> ->]. split; reflexivity.
    + intros [= -> -> ->]. split; reflexivity.
Qed.

Lemma daily_failure_not_cached_witness :
  (∅ : gmap (string * Z) (Z * list string)) = ∅
  /\ get_daily_commit_dates ∅ "duckola" 6 (noon 2025 3 1) world_forbidden 0%nat
     = (Raise (HTTPError 403), 1%nat).
Proof.
  apply (daily_failure_not_cached ∅ "duckola" 6 (noon 2025 3 1) 0 ∅ ∅ world_forbidden 0 1
           (HTTPError 403)).
  vm_compute. reflexivity.
Defined.

(** ** The "Recent Activity" block *)

Lemma monthly_frame_nonempty (secrets : gmap string string) (username : string)
    (months : Z) (now : datetime_t) (w : world) (t : nat) (df : DataFrame) :
  fst (get_github_monthly_commits secrets username months now w t) = Ok (Some df) ->
  df <> [].
Proof.
  intros Hres Hnil. apply monthly_commits_some_inv in Hres.
  destruct Hres as (hdrs & prms & repos & mc & t1 & t2 & df0 & _ & Hne & Edf0 & ->).
  destruct (map_to_list mc) as [|[m n] items] eqn:Eitems.
  - apply map_to_list_empty_iff in Eitems. contradiction.
  - cbn [parse_months] in Edf0.
    destruct (to_datetime m) as [k|]; [|discriminate].
    destruct (parse_months items) as [rows|]; [|discriminate].
    injection Edf0 as <-.
    assert (Hrow : (k, n) ∈ sort_values ((k, n) :: rows))
      by (apply sort_values_elem; left).
    rewrite Hnil in Hrow. inversion Hrow.
Qed.

Lemma cache_data_frames_nonempty (secrets : gmap string string) (username : string)
    (months : Z) (now : datetime_t) (clock : Z)
    (store store' : gmap (string * Z) (Z * option DataFrame)) (w : world) (t t' : nat)
    (res : option DataFrame) :
  frames_nonempty store ->
  get_github_monthly_commits_cached secrets username months now clock store w t
  = (Ok res, t', store') ->
  frames_nonempty store' /\ (forall df, res = Some df -> df <> []).
Proof.
  intros Hst. unfold get_github_monthly_commits_cached, cache_data. cbn [fst snd].
  assert (Hmiss :
    match get_github_monthly_commits secrets username months now w t with
    | (Ok v, t0) => (Ok v, t0, <[(username, months) := (clock, v)]> store)
    | (Raise e, t0) => (Raise e, t0, store)
    end = (Ok res, t', store') ->
    frames_nonempty store' /\ (forall df, res = Some df -> df <> [])).
  { destruct (get_github_monthly_commits secrets username months now w t) as [[v | e] t0] eqn:Hrun;
      [|discriminate].
    intros [= Ev Et Es]. subst res t0 store'.
    assert (Hv : forall df, v = Some df -> df <> []).
    { intros df ->.
      apply (monthly_frame_nonempty secrets username months now w t).
      rewrite Hrun. reflexivity. }
    split; [|exact Hv].
    intros k stored df. destruct (decide (k = (username, months))) as [-> | Hk].
    - rewrite lookup_insert_eq. intros [= _ ->]. apply Hv. reflexivity.
    - rewrite lookup_insert_ne by congruence. apply Hst. }
  destruct (store !! (username, months)) as [[stored v0]|] eqn:E; [|exact Hmiss].
  destruct (clock <? stored + 3600); [|exact Hmiss].
  intros [= -> -> ->]. split; [exact Hst|].
  intros df ->. exact (Hst _ _ _ E).
Qed.

(** X12.  The home page shows the chart exactly when the (cached)
    [get_github_monthly_commits] hands it a frame: a frame is never empty, in
    a store that only this function has written, so the [not df.empty] test
    never turns a frame away. *)
Theorem home_chart_iff_frame (secrets : gmap string string) (now : datetime_t)
    (clock : Z) (store : gmap (string * Z) (Z * option DataFrame)) (w : world) (t : nat) :
  frames_nonempty store ->
  exists res t' store',
    get_github_monthly_commits_cached secrets "duckola" 5 now clock store w t
    = (Ok res, t', store')
    /\ home_recent_activity secrets now clock store w t
       = (Ok match res with Some df => ShowChart df | None => ShowInfo end, t', store')
    /\ frames_nonempty store'.
Proof.
  intros Hst. unfold home_recent_activity.
  destruct (get_github_monthly_commits_cached secrets "duckola" 5 now clock store w t)
    as [[[res | e] t'] store'] eqn:Hrun.
  - destruct (cache_data_frames_nonempty _ _ _ _ _ _ _ _ _ _ _ Hst Hrun) as [Hst' Hres].
    exists res, t', store'. split; [reflexivity|]. split; [|exact Hst'].
    destruct res as [df|]; [|reflexivity].
    specialize (Hres df eq_refl). destruct df; [contradiction | reflexivity].
  - exfalso. unfold get_github_monthly_commits_cached, cache_data in Hrun. cbn [fst snd] in Hrun.
    destruct (monthly_commits_never_raises secrets "duckola" 5 now w t) as [v Hv].
    destruct (get_github_monthly_commits secrets "duckola" 5 now w t) as [r t0].
    cbn [fst] in Hv. subst r.
    destruct (store !! ("duckola", 5)) as [[stored v0]|]; [|discriminate].
    destruct (clock <? stored + 3600); discriminate.
Qed.

Lemma home_chart_iff_frame_witness :
  exists res t' store',
    get_github_monthly_commits_cached ∅ "duckola" 5 (noon 2025 3 1) 0 ∅ world_one_repo 0%nat
    = (Ok res, t', store')
    /\ home_recent_activity ∅ (noon 2025 3 1) 0 ∅ world_one_repo 0%nat
       = (Ok match res with Some df => ShowChart df | None => ShowInfo end, t', store')
    /\ frames_nonempty store'.
Proof.
  apply (home_chart_iff_frame ∅ (noon 2025 3 1) 0 ∅ world_one_repo 0).
  intros k stored df H. rewrite lookup_empty in H. discriminate.
Defined.

(** ** The two repository counts *)

(** X13.  Any answer with a status other than 200 makes both
    [get_repo_count] and [get_repos_created_this_year] return 0 after that
    single request, without reading the body. *)
Theorem repo_counts_zero_on_error_status (secrets : gmap string string) (user : string)
    (use_token : bool) (today : Z) (w : world) (t fuel : nat) (s : Z) (b : json) :
  (0 < fuel)%nat ->
  (forall rq, w t rq = Response s b) ->
  s <> 200 ->
  get_repo_count secrets fuel user use_token w t = (Ok (Some 0), S t)
  /\ get_repos_created_this_year secrets user today w t = (Ok 0, S t).
Proof.
  intros Hf Hw Hs. split.
  - destruct fuel as [|fuel]; [lia|].
    unfold get_repo_count. unfold bind at 1. cbn [repo_pages].
    unfold bind at 1. unfold requests_get. rewrite Hw. cbn [fst snd].
    destruct (Z.eqb_spec s 200); [contradiction|]. reflexivity.
  - unfold get_repos_created_this_year. unfold bind at 1.
    unfold requests_get. rewrite Hw. cbn [fst snd].
    destruct (Z.eqb_spec s 200); [contradiction|]. reflexivity.
Qed.

Lemma repo_counts_zero_on_error_status_witness :
  get_repo_count ∅ 5 "duckola" true world_forbidden 0%nat = (Ok (Some 0), 1%nat)
  /\ get_repos_created_this_year ∅ "duckola" nov_4 world_forbidden 0%nat = (Ok 0, 1%nat).
Proof.
  apply (repo_counts_zero_on_error_status ∅ "duckola" true nov_4 world_forbidden 0 5
           403 JInvalid).
  - lia.
  - intros rq. reflexivity.
  - lia.
Defined.

Lemma repo_pages_same_request_loops (user : string) (hdrs : list (string * string))
    (w : world) (p : list repo) :
  (100 <= length p)%nat ->
  (forall t, w t (mk_request (api ++ "/users/" ++ user ++ "/repos") hdrs [])
             = Response 200 (JRepos p)) ->
  forall (fuel : nat) (acc : list item) (page : Z) (t : nat),
    repo_pages fuel user hdrs acc page w t = (Ok None, (t + fuel)%nat).
Proof.
  intros Hlen Hw. induction fuel as [|fuel IH]; intros acc page t.
  - cbn. unfold ret. f_equal. lia.
  - cbn [repo_pages]. run_step. rewrite Hw. cbn [fst snd Z.eqb Pos.eqb negb].
    unfold ret. destruct p as [|r p]; [cbn in Hlen; lia|].
    cbn [items]. rewrite !fmap_cons. cbv beta iota.
    destruct (Z.ltb_spec (Z.of_nat (length (IRepo r :: (IRepo <$> p)))) 100) as [Hlt|_].
    { cbn [length] in Hlt, Hlen. rewrite length_fmap in Hlt. lia. }
    rewrite IH. f_equal. lia.
Qed.

Lemma repo_pages_commits_loop (user : string) (hdrs : list (string * string))
    (w : world) (l : list commit) :
  (100 <= length l)%nat ->
  (forall t, w t (mk_request (api ++ "/users/" ++ user ++ "/repos") hdrs [])
             = Response 200 (JCommits l)) ->
  forall (fuel : nat) (acc : list item) (page : Z) (t : nat),
    repo_pages fuel user hdrs acc page w t = (Ok None, (t + fuel)%nat).
Proof.
  intros Hlen Hw. induction fuel as [|fuel IH]; intros acc page t.
  - cbn. unfold ret. f_equal. lia.
  - cbn [repo_pages]. run_step. rewrite Hw. cbn [fst snd Z.eqb Pos.eqb negb].
    unfold ret. destruct l as [|c l]; [cbn in Hlen; lia|].
    cbn [items]. rewrite !fmap_cons. cbv beta iota.
    destruct (Z.ltb_spec (Z.of_nat (length (ICommit c :: (ICommit <$> l)))) 100) as [Hlt|_].
    { cbn [length] in Hlt, Hlen. rewrite length_fmap in Hlt. lia. }
    rewrite IH. f_equal. lia.
Qed.

Lemma repo_pages_first_answer (user : string) (hdrs : list (string * string))
    (w : world) (fuel : nat) (acc : list item) (page : Z) (t t' : nat)
    (repos : list item) :
  time_independent w ->
  repo_pages fuel user hdrs acc page w t = (Ok (Some repos), t') ->
  t' = S t /\ repo_pages 1 user hdrs acc page w t = (Ok (Some repos), S t).
Proof.
  intros Hti Hrun. destruct fuel as [|fuel]; [discriminate|].
  cbn [repo_pages] in Hrun |- *.
  unfold bind at 1 in Hrun. unfold bind at 1. unfold requests_get in Hrun |- *.
  destruct (w t _) as [|s b] eqn:Ew; [discriminate|]. cbn [fst snd] in Hrun |- *.
  destruct (negb (s =? 200)) eqn:Es.
  - unfold ret in Hrun |- *. injection Hrun as <- <-. split; reflexivity.
  - apply negb_false_iff, Z.eqb_eq in Es. subst s.
    unfold bind at 1 in Hrun. unfold bind at 1. unfold resp_json in Hrun |- *.
    cbn [snd] in Hrun |- *.
    destruct b as [p | l |]; unfold ret, raise in Hrun |- *; try discriminate.
    + destruct p as [|r p]; [injection Hrun as <- <-; split; reflexivity|].
      cbn [items] in Hrun |- *. rewrite !fmap_cons in Hrun |- *. cbv beta iota in Hrun |- *.
      destruct (Z.ltb_spec (Z.of_nat (length (IRepo r :: (IRepo <$> p)))) 100) as [_|Hge];
        [injection Hrun as <- <-; split; reflexivity|].
      exfalso.
      rewrite <- fmap_cons in Hrun. change (IRepo <$> r :: p) with (items (JRepos (r :: p))) in Hrun.
      rewrite (repo_pages_same_request_loops user hdrs w (r :: p)) in Hrun.
      * discriminate.
      * cbn [length] in Hge |- *. rewrite length_fmap in Hge. lia.
      * intros t0. rewrite (Hti t0 t). exact Ew.
    + destruct l as [|c l]; [injection Hrun as <- <-; split; reflexivity|].
      cbn [items] in Hrun |- *. rewrite !fmap_cons in Hrun |- *. cbv beta iota in Hrun |- *.
      destruct (Z.ltb_spec (Z.of_nat (length (ICommit c :: (ICommit <$> l)))) 100) as [_|Hge];
        [injection Hrun as <- <-; split; reflexivity|].
      exfalso.
      rewrite (repo_pages_commits_loop user hdrs w (c :: l)) in Hrun.
      * discriminate.
      * cbn [length] in Hge |- *. rewrite length_fmap in Hge. lia.
      * intros t0. rewrite (Hti t0 t). exact Ew.
Qed.

(** X14.  [get_repo_count] asks for the same thing on every turn of its loop
    (the page number is never sent): against an upstream whose answers do not
    change over time it either returns after exactly one request, with the
    count the first turn of the loop alone gives, or does not return at
    all. *)
Theorem repo_count_single_request (secrets : gmap string string) (user : string)
    (use_token : bool) (w : world) (t t' fuel : nat) (n : Z) :
  time_independent w ->
  get_repo_count secrets fuel user use_token w t = (Ok (Some n), t') ->
  t' = S t
  /\ get_repo_count secrets 1 user use_token w t = (Ok (Some n), S t).
Proof.
  intros Hti Hrun. unfold get_repo_count in Hrun |- *.
  apply bind_ok_inv in Hrun. destruct Hrun as (repos & t1 & Hloop & Hret).
  unfold ret in Hret. injection Hret as Hn <-.
  destruct repos as [repos|]; [|discriminate].
  destruct (repo_pages_first_answer _ _ _ _ _ _ _ _ _ Hti Hloop) as [-> Hone].
  split; [reflexivity|]. unfold bind at 1. rewrite Hone. unfold ret.
  cbn [option_map] in Hn |- *. injection Hn as <-. reflexivity.
Qed.

Lemma repo_count_single_request_witness :
  time_independent world_paged_api
  /\ get_repo_count ∅ 5 "duckola" true world_paged_api 0%nat = (Ok (Some 30), 1%nat)
  /\ get_repo_count ∅ 1 "duckola" true world_paged_api 0%nat = (Ok (Some 30), 1%nat).
Proof.
  assert (Hti : time_independent world_paged_api) by (intros t t' rq; reflexivity).
  assert (Hrun : get_repo_count ∅ 5 "duckola" true world_paged_api 0%nat
                 = (Ok (Some 30), 1%nat)) by (vm_compute; reflexivity).
  split; [exact Hti|]. split; [exact Hrun|].
  apply (repo_count_single_request ∅ "duckola" true world_paged_api 0 1 5 30 Hti Hrun).
Defined.

(** X15.  If the upstream keeps answering with a page of 100 or more
    entries, the loop of [get_repo_count] never ends: after any number of
    turns it is still running, with one request made per turn. *)
Theorem repo_count_never_returns (secrets : gmap string string) (user : string)
    (use_token : bool) (w : world) (p : list repo) (t fuel : nat) :
  (100 <= length p)%nat ->
  (forall t rq, w t rq = Response 200 (JRepos p)) ->
  get_repo_count secrets fuel user use_token w t = (Ok None, (t + fuel)%nat).
Proof.
  intros Hlen Hw. unfold get_repo_count. unfold bind at 1.
  rewrite (repo_pages_full_page_loops user _ w p Hlen Hw). reflexivity.
Qed.

Lemma repo_count_never_returns_witness :
  get_repo_count ∅ 7 "duckola" true
    (fun _ _ => Response 200 (JRepos (numbered_repos 100 "2024-05-01T00:00:00Z"))) 0%nat
  = (Ok None, (0 + 7)%nat).
Proof.
  apply (repo_count_never_returns ∅ "duckola" true
           (fun _ _ => Response 200 (JRepos (numbered_repos 100 "2024-05-01T00:00:00Z")))
           (numbered_repos 100 "2024-05-01T00:00:00Z") 0 7).
  - vm_compute. lia.
  - intros t rq. reflexivity.
Defined.

(** ** The year test of [get_repos_created_this_year] *)

Lemma four_digit_years :
  forallb four_digit_year_ok (Z.of_nat <$> seq 1000 (9 * 1000)) = true.
Proof. vm_compute. reflexivity. Qed.

Lemma str_int_four_digits (y : Z) :
  1000 <= y <= 9999 -> str_int y = datetime.fmt04 y "".
Proof.
  intros Hy. pose proof four_digit_years as H. rewrite forallb_forall in H.
  specialize (H y). unfold four_digit_year_ok in H. apply String.eqb_eq. apply H.
  apply in_map_iff. exists (Z.to_nat y). split; [lia|]. apply in_seq. lia.
Qed.

Lemma digit_inj (a b : Z) :
  0 <= a <= 9 -> 0 <= b <= 9 -> datetime.digit a = datetime.digit b -> a = b.
Proof.
  intros Ha Hb E. apply Z.compare_eq. rewrite <- digit_compare by assumption.
  rewrite E. unfold Ascii.compare. apply N.compare_refl.
Qed.

Lemma prefix_year (y1 y2 : Z) (rest : string) :
  0 <= y1 < 10000 -> 0 <= y2 < 10000 ->
  String.prefix (datetime.fmt04 y1 "") (datetime.fmt04 y2 rest) = true <-> y1 = y2.
Proof.
  intros H1 H2. split; [|intros ->].
  - unfold datetime.fmt04. cbn [String.prefix]. intros H.
    repeat match type of H with
           | context [ascii_dec ?a ?b] =>
               let E := fresh "E" in
               destruct (ascii_dec a b) as [E|]; [|discriminate];
               apply digit_inj in E; [|Z.to_euclidean_division_equations; lia ..]
           end.
    Z.to_euclidean_division_equations. lia.
  - unfold datetime.fmt04. cbn [String.prefix].
    repeat match goal with
           | |- context [ascii_dec ?a ?a] => destruct (ascii_dec a a); [|contradiction]
           end.
    destruct rest; reflexivity.
Qed.

Lemma fmt04_append (y : Z) (r s : string) :
  datetime.fmt04 y r ++ s = datetime.fmt04 y (r ++ s).
Proof. reflexivity. Qed.

Lemma created_this_year (today d : Z) (rest : string) :
  datetime.valid today -> 1000 <= datetime.year today -> datetime.valid d ->
  String.prefix (str_int (datetime.year today)) (datetime.isoformat d ++ rest) = true
  <-> datetime.year d = datetime.year today.
Proof.
  intros Hv Hy Hd. unfold datetime.year in *.
  pose proof (ord2ymd_spec today Hv) as St. pose proof (ord2ymd_spec d Hd) as Sd.
  unfold datetime.isoformat.
  destruct (datetime.ord2ymd today) as [[y m] dd]. destruct (datetime.ord2ymd d) as [[y' m'] dd'].
  cbn [fst] in *. rewrite str_int_four_digits by lia.
  rewrite fmt04_append.
  rewrite prefix_year by lia. split; congruence.
Qed.

(** X16.  When the listing is answered 200 and the repositories carry ISO
    creation timestamps, [get_repos_created_this_year] returns the number of
    listed repositories created in the current calendar year (for a current
    year of four digits). *)
Theorem repos_created_this_year_counts (secrets : gmap string string) (user : string)
    (today : Z) (w : world) (t : nat) (rs : list (repo * Z)) :
  (forall rq, w t rq = Response 200 (JRepos (fst <$> rs))) ->
  datetime.valid today -> 1000 <= datetime.year today ->
  Forall (fun rd => created_on (fst rd) (snd rd)) rs ->
  get_repos_created_this_year secrets user today w t
  = (Ok (Z.of_nat (length (filter (fun rd => datetime.year (snd rd) = datetime.year today) rs))),
     S t).
Proof.
  intros Hw Hv Hy Hrs. unfold get_repos_created_this_year.
  unfold bind at 1. unfold requests_get. rewrite Hw. cbn [fst snd negb Z.eqb Pos.eqb].
  unfold bind at 1. unfold resp_json, ret. cbn [snd].
  unfold bind at 1. unfold as_repos, ret. f_equal. f_equal. f_equal. clear Hw.
  induction Hrs as [|[r d] rs [Hd (rest & Hc)] _ IH]; [reflexivity|].
  rewrite fmap_cons, !filter_cons. cbn [fst snd] in *.
  pose proof (created_this_year today d rest Hv Hy Hd) as Hiff. rewrite <- Hc in Hiff.
  destruct (decide (String.prefix (str_int (datetime.year today)) (created_at r) = true));
    destruct (decide (datetime.year d = datetime.year today)); cbn [length];
    try (f_equal; exact IH); try exact IH; tauto.
Qed.

Lemma repos_created_this_year_counts_witness :
  get_repos_created_this_year ∅ "duckola" nov_4
    (fun _ _ => Response 200
                  (JRepos (fst <$> [(mk_repo "site" "2025-06-01T00:00:00Z" false,
                                     datetime.ymd2ord 2025 6 1);
                                    (mk_repo "old" "2024-12-31T23:59:59Z" true,
                                     datetime.ymd2ord 2024 12 31)]))) 0%nat
  = (Ok (Z.of_nat
           (length (filter (fun rd => datetime.year (snd rd) = datetime.year nov_4)
                      [(mk_repo "site" "2025-06-01T00:00:00Z" false,
                        datetime.ymd2ord 2025 6 1);
                       (mk_repo "old" "2024-12-31T23:59:59Z" true,
                        datetime.ymd2ord 2024 12 31)]))), 1%nat).
Proof.
  apply (repos_created_this_year_counts ∅ "duckola" nov_4 _ 0).
  - intros rq. reflexivity.
  - unfold datetime.valid; cbv; intuition discriminate.
  - vm_compute. discriminate.
  - repeat constructor; try (cbv; discriminate);
      [exists "T00:00:00Z" | exists "T23:59:59Z"]; reflexivity.
Defined.

(** ** Which requests are made *)

Lemma only_asks_ret {A : Type} (P : request -> Prop) (a : A) : only_asks P (ret a).
Proof. intros w w' _ t. reflexivity. Qed.

Lemma only_asks_raise {A : Type} (P : request -> Prop) (e : exn) :
  only_asks P (raise (A := A) e).
Proof. intros w w' _ t. reflexivity. Qed.

Lemma only_asks_lift {A : Type} (P : request -> Prop) (r : result A) :
  only_asks P (lift r).
Proof. intros w w' _ t. reflexivity. Qed.

Lemma only_asks_bind {A B : Type} (P : request -> Prop) (m : M A) (k : A -> M B) :
  only_asks P m -> (forall a, only_asks P (k a)) -> only_asks P (bind m k).
Proof.
  intros Hm Hk w w' Hww t. unfold bind. rewrite (Hm w w' Hww t).
  destruct (m w' t) as [[a | e] t']; [apply Hk; exact Hww | reflexivity].
Qed.

Lemma only_asks_try {A : Type} (P : request -> Prop) (m : M A) (h : exn -> M A) :
  only_asks P m -> (forall e, only_asks P (h e)) -> only_asks P (try_except m h).
Proof.
  intros Hm Hh w w' Hww t. unfold try_except. rewrite (Hm w w' Hww t).
  destruct (m w' t) as [[a | e] t']; [reflexivity | apply Hh; exact Hww].
Qed.

Lemma only_asks_get (P : request -> Prop) (rq : request) :
  P rq -> only_asks P (requests_get rq).
Proof. intros Hrq w w' Hww t. unfold requests_get. rewrite (Hww t rq Hrq). reflexivity. Qed.

Lemma only_asks_status (P : request -> Prop) (resp : Z * json) :
  only_asks P (raise_for_status resp).
Proof.
  intros w w' _ t. unfold raise_for_status.
  destruct ((400 <=? fst resp) && (fst resp <? 600)); reflexivity.
Qed.

Lemma only_asks_json (P : request -> Prop) (resp : Z * json) :
  only_asks P (resp_json resp).
Proof. intros w w' _ t. unfold resp_json. destruct (snd resp); reflexivity. Qed.

Lemma only_asks_as_repos (P : request -> Prop) (j : json) : only_asks P (as_repos j).
Proof. intros w w' _ t. destruct j as [l | [|? ?] |]; reflexivity. Qed.

Lemma only_asks_as_commits (P : request -> Prop) (j : json) : only_asks P (as_commits j).
Proof. intros w w' _ t. destruct j as [[|? ?] | l |]; reflexivity. Qed.


Lemma repo_pages_asks (P : request -> Prop) (user : string)
    (hdrs : list (string * string)) :
  P (mk_request (api ++ "/users/" ++ user ++ "/repos") hdrs []) ->
  forall (fuel : nat) (acc : list item) (page : Z),
    only_asks P (repo_pages fuel user hdrs acc page).
Proof.
  intros HP. induction fuel as [|fuel IH]; intros acc page; cbn [repo_pages].
  - apply only_asks_ret.
  - apply only_asks_bind; [apply only_asks_get; exact HP|]. intros resp.
    destruct (negb (fst resp =? 200)); [apply only_asks_ret|].
    apply only_asks_bind; [apply only_asks_json|]. intros j. cbv zeta.
    destruct (items j) as [|r data]; [apply only_asks_ret|].
    destruct (Z.of_nat (length (r :: data)) <? 100); [apply only_asks_ret | apply IH].
Qed.

Lemma get_repo_count_asks (P : request -> Prop) (secrets : gmap string string)
    (user : string) (use_token : bool) (fuel : nat) :
  (forall hdrs,
      hdrs = ("Accept", "application/vnd.github+json")
             :: match secrets !! "GITHUB_TOKEN" with
                | Some tok => if use_token then [("Authorization", "token " ++ tok)] else []
                | None => []
                end ->
      P (mk_request (api ++ "/users/" ++ user ++ "/repos") hdrs [])) ->
  only_asks P (get_repo_count secrets fuel user use_token).
Proof.
  intros HP. unfold get_repo_count.
  apply only_asks_bind; [|intros r; apply only_asks_ret].
  apply repo_pages_asks. apply HP. reflexivity.
Qed.

Lemma get_repos_created_this_year_asks (P : request -> Prop)
    (secrets : gmap string string) (user : string) (today : Z) :
  (forall hdrs,
      hdrs = match secrets !! "GITHUB_TOKEN" with
             | Some tok => [("Authorization", "token " ++ tok)]
             | None => []
             end ->
      P (mk_request (api ++ "/users/" ++ user ++ "/repos?type=owner&per_page=100") hdrs [])) ->
  only_asks P (get_repos_created_this_year secrets user today).
Proof.
  intros HP. unfold get_repos_created_this_year.
  apply only_asks_bind; [apply only_asks_get; apply HP; reflexivity|]. intros resp.
  destruct (negb (fst resp =? 200)); [apply only_asks_ret|].
  apply only_asks_bind; [apply only_asks_json|]. intros j.
  apply only_asks_bind; [apply only_asks_as_repos|]. intros repos.
  apply only_asks_ret.
Qed.

Lemma monthly_repos_asks (P : request -> Prop) (username : string)
    (hdrs prms : list (string * string)) :
  (forall nm, P (mk_request (api ++ "/repos/" ++ username ++ "/" ++ nm ++ "/commits")
                   hdrs prms)) ->
  forall (repos : list repo) (mc : gmap string Z),
    only_asks P (monthly_repos username hdrs prms repos mc).
Proof.
  intros HP. induction repos as [|r repos IH]; intros mc; cbn [monthly_repos].
  - apply only_asks_ret.
  - apply only_asks_bind; [apply only_asks_get; apply HP|]. intros resp.
    destruct (fst resp =? 200); [|apply IH].
    apply only_asks_bind; [apply only_asks_json|]. intros j.
    apply only_asks_bind; [apply only_asks_as_commits|]. intros commits. apply IH.
Qed.

Lemma get_github_monthly_commits_asks (P : request -> Prop)
    (secrets : gmap string string) (username : string) (months : Z) (now : datetime_t) :
  (forall hdrs u prms,
      hdrs = match secrets !! "GITHUB_TOKEN" with
             | Some tok => if truthy tok then [("Authorization", "token " ++ tok)] else []
             | None => []
             end ->
      (u = api ++ "/users/" ++ username ++ "/repos" /\ prms = []
       \/ exists nm, u = api ++ "/repos/" ++ username ++ "/" ++ nm ++ "/commits") ->
      P (mk_request u hdrs prms)) ->
  only_asks P (get_github_monthly_commits secrets username months now).
Proof.
  intros HP. unfold get_github_monthly_commits.
  apply only_asks_try; [|intros e; apply only_asks_ret].
  apply only_asks_bind;
    [apply only_asks_get; apply HP; [reflexivity | left; split; reflexivity]|].
  intros resp.
  apply only_asks_bind; [apply only_asks_status|]. intros _.
  apply only_asks_bind; [apply only_asks_json|]. intros j.
  apply only_asks_bind; [apply only_asks_lift|]. intros start.
  apply only_asks_bind; [apply only_asks_as_repos|]. intros repos.
  apply only_asks_bind.
  - apply monthly_repos_asks. intros nm. apply HP; [reflexivity|]. right. exists nm. reflexivity.
  - intros mc. destruct (decide (mc = ∅)); [apply only_asks_ret|].
    destruct (parse_months (map_to_list mc)); [apply only_asks_ret | apply only_asks_raise].
Qed.

Lemma github_request_asks (P : request -> Prop) (secrets : gmap string string)
    (u : string) (prms : list (string * string)) :
  (forall hdrs,
      hdrs = ("Accept", "application/vnd.github+json")
             :: match GITHUB_TOKEN secrets with
                | Some tok => if truthy tok then [("Authorization", "token " ++ tok)] else []
                | None => []
                end ->
      P (mk_request u hdrs prms)) ->
  only_asks P (github_request secrets u prms).
Proof.
  intros HP. unfold github_request.
  apply only_asks_bind; [apply only_asks_get; apply HP; reflexivity|]. intros resp.
  apply only_asks_bind; [apply only_asks_status|]. intros _. apply only_asks_json.
Qed.

Lemma daily_repos_asks (P : request -> Prop) (secrets : gmap string string)
    (user : string) (prms : list (string * string)) :
  (forall nm, only_asks P (github_request secrets
                             (api ++ "/repos/" ++ user ++ "/" ++ nm ++ "/commits") prms)) ->
  forall (repos : list repo) (dates : gset string),
    only_asks P (daily_repos secrets user prms repos dates).
Proof.
  intros HP. induction repos as [|r repos IH]; intros dates; cbn [daily_repos].
  - apply only_asks_ret.
  - apply only_asks_bind.
    + apply only_asks_try; [|intros e; apply only_asks_ret].
      apply only_asks_bind; [apply HP|]. intros j. apply only_asks_ret.
    + intros [j|]; [|apply IH].
      apply only_asks_bind; [apply only_asks_as_commits|]. intros commits. apply IH.
Qed.

Lemma get_daily_commit_dates_asks (P : request -> Prop) (secrets : gmap string string)
    (user : string) (months : Z) (now : datetime_t) :
  (forall hdrs u prms,
      hdrs = ("Accept", "application/vnd.github+json")
             :: match GITHUB_TOKEN secrets with
                | Some tok => if truthy tok then [("Authorization", "token " ++ tok)] else []
                | None => []
                end ->
      (u = api ++ "/users/" ++ user ++ "/repos"
       \/ exists nm, u = api ++ "/repos/" ++ user ++ "/" ++ nm ++ "/commits") ->
      P (mk_request u hdrs prms)) ->
  only_asks P (get_daily_commit_dates secrets user months now).
Proof.
  intros HP. unfold get_daily_commit_dates.
  apply only_asks_bind.
  { apply github_request_asks. intros hdrs ->. apply HP; [reflexivity | left; reflexivity]. }
  intros j.
  apply only_asks_bind; [apply only_asks_lift|]. intros since.
  apply only_asks_bind; [apply only_asks_as_repos|]. intros repos.
  apply only_asks_bind; [|intros dates; apply only_asks_ret].
  apply daily_repos_asks. intros nm. apply github_request_asks. intros hdrs ->.
  apply HP; [reflexivity|]. right. exists nm. reflexivity.
Qed.

(** X17.  All four operations talk to the hosting API only: whatever account
    name or repository names are spliced into the URLs, every request goes to
    an address under https://api.github.com/ . *)
Theorem requests_go_to_api (secrets : gmap string string) (user : string)
    (months : Z) (now : datetime_t) (today : Z) (use_token : bool) (fuel : nat) :
  only_asks to_api (get_github_monthly_commits secrets user months now)
  /\ only_asks to_api (get_repo_count secrets fuel user use_token)
  /\ only_asks to_api (get_repos_created_this_year secrets user today)
  /\ only_asks to_api (get_daily_commit_dates secrets user months now).
Proof.
  repeat split.
  - apply get_github_monthly_commits_asks. intros hdrs u prms _ [[-> _] | [nm ->]]; reflexivity.
  - apply get_repo_count_asks. intros hdrs _. reflexivity.
  - apply get_repos_created_this_year_asks. intros hdrs _. reflexivity.
  - apply get_daily_commit_dates_asks. intros hdrs u prms _ [-> | [nm ->]]; reflexivity.
Qed.

(** X18.  Without a [GITHUB_TOKEN] secret none of the four operations sends
    an [Authorization] header. *)
Theorem no_secret_no_authorization (secrets : gmap string string) (user : string)
    (months : Z) (now : datetime_t) (today : Z) (use_token : bool) (fuel : nat) :
  secrets !! "GITHUB_TOKEN" = None ->
  only_asks anonymous (get_github_monthly_commits secrets user months now)
  /\ only_asks anonymous (get_repo_count secrets fuel user use_token)
  /\ only_asks anonymous (get_repos_created_this_year secrets user today)
  /\ only_asks anonymous (get_daily_commit_dates secrets user months now).
Proof.
  intros Hno. repeat split.
  - apply get_github_monthly_commits_asks. intros hdrs u prms -> _ v. rewrite Hno.
    cbn. apply not_elem_of_nil.
  - apply get_repo_count_asks. intros hdrs -> v. rewrite Hno. cbn.
    rewrite elem_of_cons. intros [[=] | H]. inversion H.
  - apply get_repos_created_this_year_asks. intros hdrs -> v. rewrite Hno. cbn.
    apply not_elem_of_nil.
  - apply get_daily_commit_dates_asks. intros hdrs u prms -> _ v.
    unfold GITHUB_TOKEN. rewrite Hno. cbn.
    rewrite elem_of_cons. intros [[=] | H]. inversion H.
Qed.

Lemma no_secret_no_authorization_witness :
  only_asks anonymous (get_github_monthly_commits ∅ "duckola" 5 (noon 2025 3 1))
  /\ only_asks anonymous (get_repo_count ∅ 5 "duckola" true)
  /\ only_asks anonymous (get_repos_created_this_year ∅ "duckola" nov_4)
  /\ only_asks anonymous (get_daily_commit_dates ∅ "duckola" 5 (noon 2025 3 1)).
Proof.
  apply (no_secret_no_authorization ∅ "duckola" 5 (noon 2025 3 1) nov_4 true 5).
  apply lookup_empty.
Defined.

(** X19.  With a non-empty [GITHUB_TOKEN] secret every request of the four
    operations presents it as ["token <secret>"]. *)
Theorem secret_is_presented (secrets : gmap string string) (tok : string) (user : string)
    (months : Z) (now : datetime_t) (today : Z) (fuel : nat) :
  secrets !! "GITHUB_TOKEN" = Some tok -> tok <> "" ->
  only_asks (presents tok) (get_github_monthly_commits secrets user months now)
  /\ only_asks (presents tok) (get_repo_count secrets fuel user true)
  /\ only_asks (presents tok) (get_repos_created_this_year secrets user today)
  /\ only_asks (presents tok) (get_daily_commit_dates secrets user months now).
Proof.
  intros Htok Hne.
  assert (Ht : truthy tok = true).
  { unfold truthy. apply negb_true_iff. apply String.eqb_neq. exact Hne. }
  repeat split.
  - apply get_github_monthly_commits_asks. intros hdrs u prms -> _.
    unfold presents. rewrite Htok, Ht. cbn. left.
  - apply get_repo_count_asks. intros hdrs ->.
    unfold presents. rewrite Htok. cbn. right. left.
  - apply get_repos_created_this_year_asks. intros hdrs ->.
    unfold presents. rewrite Htok. cbn. left.
  - apply get_daily_commit_dates_asks. intros hdrs u prms -> _.
    unfold presents, GITHUB_TOKEN. rewrite Htok, Ht. cbn. right. left.
Qed.

Lemma secret_is_presented_witness :
  only_asks (presents "s3cret")
    (get_github_monthly_commits {["GITHUB_TOKEN" := "s3cret"]} "duckola" 5 (noon 2025 3 1))
  /\ only_asks (presents "s3cret")
       (get_repo_count {["GITHUB_TOKEN" := "s3cret"]} 5 "duckola" true)
  /\ only_asks (presents "s3cret")
       (get_repos_created_this_year {["GITHUB_TOKEN" := "s3cret"]} "duckola" nov_4)
  /\ only_asks (presents "s3cret")
       (get_daily_commit_dates {["GITHUB_TOKEN" := "s3cret"]} "duckola" 5 (noon 2025 3 1)).
Proof.
  apply (secret_is_presented {["GITHUB_TOKEN" := "s3cret"]} "s3cret" "duckola" 5
           (noon 2025 3 1) nov_4 5).
  - apply lookup_singleton_eq.
  - discriminate.
Defined.

(** X20.  [get_repo_count] only ever asks for the plain repository list of
    the account, without query parameters: neither [per_page] nor the page
    number it keeps incrementing reaches the upstream. *)
Theorem repo_count_sends_no_page (secrets : gmap string string) (user : string)
    (use_token : bool) (fuel : nat) :
  only_asks (fun rq => url rq = api ++ "/users/" ++ user ++ "/repos" /\ bare rq)
    (get_repo_count secrets fuel user use_token).
Proof.
  apply get_repo_count_asks. intros hdrs _. split; reflexivity.
Qed.

(** ** The visit counter *)

Lemma count_visit_spec (ss : gmap string Z) :
  count_visit ss = Ok (<["visits" := default 0 (ss !! "visits") + 1]> ss).
Proof.
  unfold count_visit. cbv zeta.
  destruct (decide (ss !! "visits" = None)) as [E | E].
  - rewrite lookup_insert_eq, E. cbn. rewrite insert_insert_eq. reflexivity.
  - destruct (ss !! "visits") as [v|]; [reflexivity | contradiction].
Qed.

(** X21.  The visit counter never fails and counts the runs: after [n] runs
    of the script on a session that had no counter, the counter is [n] and
    every other entry of the session is as it was. *)
Theorem visits_count_runs (ss : gmap string Z) (n : nat) :
  ss !! "visits" = None -> (0 < n)%nat ->
  exists ss',
    reruns n ss = Ok ss'
    /\ ss' !! "visits" = Some (Z.of_nat n)
    /\ forall k, k <> "visits" -> ss' !! k = ss !! k.
Proof.
  intros Hnone Hn.
  assert (H : exists ss', reruns n ss = Ok ss'
                          /\ ss' !! "visits"
                             = match n with O => None | S _ => Some (Z.of_nat n) end
                          /\ forall k, k <> "visits" -> ss' !! k = ss !! k).
  { clear Hn. induction n as [|n (s & Hs & Hv & Hk)].
    - exists ss. split; [reflexivity|]. split; [exact Hnone | intros; reflexivity].
    - cbn [reruns]. rewrite Hs, count_visit_spec. eexists. split; [reflexivity|].
      rewrite lookup_insert_eq, Hv. split.
      + f_equal. destruct n; cbn [default]; unfold id; lia.
      + intros k Hne. rewrite lookup_insert_ne by congruence. apply Hk. exact Hne. }
  destruct H as (ss' & Hr & Hv & Hk). exists ss'. split; [exact Hr|].
  split; [|exact Hk]. destruct n; [lia | exact Hv].
Qed.

Lemma visits_count_runs_witness :
  exists ss',
    reruns 3 {["main_nav" := 0]} = Ok ss'
    /\ ss' !! "visits" = Some (Z.of_nat 3)
    /\ forall k, k <> "visits" -> ss' !! k = ({["main_nav" := 0]} : gmap string Z) !! k.
Proof.
  apply (visits_count_runs {["main_nav" := 0]} 3).
  - reflexivity.
  - lia.
Defined.

(** ** The résumé button *)

(** X22.  The sidebar never offers an empty download: the PDF is offered
    exactly when [resume_adolfo.pdf] can be read and is not empty, and in
    every other case the generated text résumé is offered instead. *)
Theorem resume_download_never_empty (fs : filesystem) :
  data (sidebar_resume fs) <> ""
  /\ (mime (sidebar_resume fs) = "application/pdf"
      <-> exists bytes, fs "resume_adolfo.pdf" = Some bytes /\ bytes <> "")
  /\ (mime (sidebar_resume fs) <> "application/pdf" ->
      data (sidebar_resume fs) = make_resume_bytes "Lee Jasmin R. Adolfo").
Proof.
  unfold sidebar_resume, load_file_bytes.
  destruct (fs "resume_adolfo.pdf") as [bytes|] eqn:E.
  - destruct bytes as [|c bytes]; cbn.
    + split; [discriminate|]. split; [|reflexivity].
      split; [discriminate|]. intros (b & [= <-] & Hb). contradiction.
    + split; [discriminate|]. split; [|intros H; contradiction].
      split; [|reflexivity]. intros _. eexists. split; [reflexivity | discriminate].
  - cbn. split; [discriminate|]. split; [|reflexivity].
    split; [discriminate|]. intros (b & [=] & _).
Qed.

(** X23.  A [GITHUB_TOKEN] secret that is present but empty is treated in
    two ways: [get_github_monthly_commits] and [get_daily_commit_dates] send
    no [Authorization] header, while [get_repo_count] and
    [get_repos_created_this_year] send an empty credential, ["token "]. *)
Theorem empty_secret_is_split (secrets : gmap string string) (user : string)
    (months : Z) (now : datetime_t) (today : Z) (fuel : nat) :
  secrets !! "GITHUB_TOKEN" = Some "" ->
  only_asks anonymous (get_github_monthly_commits secrets user months now)
  /\ only_asks anonymous (get_daily_commit_dates secrets user months now)
  /\ only_asks (presents "") (get_repo_count secrets fuel user true)
  /\ only_asks (presents "") (get_repos_created_this_year secrets user today).
Proof.
  intros Htok. repeat split.
  - apply get_github_monthly_commits_asks. intros hdrs u prms -> _ v. rewrite Htok.
    cbn. apply not_elem_of_nil.
  - apply get_daily_commit_dates_asks. intros hdrs u prms -> _ v.
    unfold GITHUB_TOKEN. rewrite Htok. cbn.
    rewrite elem_of_cons. intros [[=] | H]. inversion H.
  - apply get_repo_count_asks. intros hdrs ->.
    unfold presents. rewrite Htok. cbn. right. left.
  - apply get_repos_created_this_year_asks. intros hdrs ->.
    unfold presents. rewrite Htok. cbn. left.
Qed.

Lemma empty_secret_is_split_witness :
  only_asks anonymous
    (get_github_monthly_commits {["GITHUB_TOKEN" := ""]} "duckola" 5 (noon 2025 3 1))
  /\ only_asks anonymous
       (get_daily_commit_dates {["GITHUB_TOKEN" := ""]} "duckola" 5 (noon 2025 3 1))
  /\ only_asks (presents "") (get_repo_count {["GITHUB_TOKEN" := ""]} 5 "duckola" true)
  /\ only_asks (presents "")
       (get_repos_created_this_year {["GITHUB_TOKEN" := ""]} "duckola" nov_4).
Proof.
  apply (empty_secret_is_split {["GITHUB_TOKEN" := ""]} "duckola" 5 (noon 2025 3 1) nov_4 5).
  apply lookup_singleton_eq.
Defined.

Lemma daily_dates_of_kept_commits_witness :
  exists dates,
    get_daily_commit_dates ∅ "duckola" 5 (noon 2025 3 1) world_middle_unreachable 0%nat
    = (Ok dates, (1 + length three_repos)%nat)
    /\ Sorted str_le dates /\ NoDup dates
    /\ forall x, x ∈ dates
                 <-> exists c,
                       c ∈ concat (snd <$>
                             [(Response 200 (JCommits [mk_commit "2025-01-05T10:00:00Z"]),
                               [mk_commit "2025-01-05T10:00:00Z"]);
                              (Unreachable, []);
                              (Response 200 (JCommits [mk_commit "2025-02-01T08:00:00Z"]),
                               [mk_commit "2025-02-01T08:00:00Z"])])
                       /\ day_of c = x.
Proof.
  apply (daily_dates_of_kept_commits ∅ "duckola" 5 (noon 2025 3 1)
           world_middle_unreachable 0 200 three_repos).
  - lia.
  - intros rq. reflexivity.
  - vm_compute. intuition discriminate.
  - reflexivity.
  - intros [|[|[|i]]] a Ha; try discriminate Ha; injection Ha as <-; cbn [fst snd];
      (split; [|intros rq; reflexivity]).
    + apply fetch_ok. lia.
    + apply fetch_unreachable.
    + apply fetch_ok. lia.
Defined.


Lemma monthly_commits_call_count_witness :
  (1 <= snd (get_github_monthly_commits ∅ "duckola" 5 (noon 2025 3 1) world_one_repo 0%nat)
   <= 1 + length one_repo)%nat.
Proof.
  apply (monthly_commits_call_count ∅ "duckola" 5 (noon 2025 3 1) world_one_repo 0 200 one_repo).
  intros rq. reflexivity.
Defined.

Lemma resume_download_never_empty_witness :
  data (sidebar_resume (fun _ => Some "")) <> ""
  /\ (mime (sidebar_resume (fun _ => Some "")) = "application/pdf"
      <-> exists bytes, (fun _ : string => Some "") "resume_adolfo.pdf" = Some bytes
                        /\ bytes <> "")
  /\ (mime (sidebar_resume (fun _ => Some "")) <> "application/pdf" ->
      data (sidebar_resume (fun _ => Some "")) = make_resume_bytes "Lee Jasmin R. Adolfo").
Proof. apply (resume_download_never_empty (fun _ => Some "")). Defined.
